(** * vscode-pgf: the PGF-to-raster conversion pipeline of [extension.ts]

    A shallow embedding of [compilePgfToPdf] (with its inner
    [extractMatplotlibPreamble]), [renderPdfToPng] and
    [PgfViewerProvider.resolveCustomEditor], and the properties of the
    specification that concern them.

    JavaScript strings are sequences of UTF-16 code units: a string is a
    [list N], its [length] the number of code units.  The file system, the
    trace of spawned processes and the webview panel form an explicit world
    that is threaded through a state-and-exception monad.  The external
    programs, the [path] and [os] functions and the name [mkdtemp] draws are
    parameters.  Of the calls into the editor, [vscode.open] may be rejected
    and [dispose] may throw, as the handlers around them provide for; the
    setters of the webview return normally.  [console] output is left
    out. *)

From Stdlib Require Import String Ascii NArith.
From stdpp Require Import gmap list.

Abbreviation jsstring := (list N).

(** A literal of the source, as code units. *)
Definition js (s : string) : jsstring :=
  (fun a => N_of_ascii a) <$> list_ascii_of_string s.

(** ** The string built-ins the source calls *)

Module Js.

(** The characters [\s] matches and [String.prototype.trim] removes:
    WhiteSpace and LineTerminator of ECMAScript. *)
Definition isWhiteSpace (c : N) : bool :=
  ((9 <=? c) && (c <=? 13) || (c =? 32) || (c =? 160) || (c =? 5760)
   || (8192 <=? c) && (c <=? 8202) || (c =? 8232) || (c =? 8233)
   || (c =? 8239) || (c =? 8287) || (c =? 12288) || (c =? 65279))%N.

Definition isPercent (c : N) : bool := (c =? 37)%N.

(** The input after its longest prefix of characters of a class. *)
Fixpoint skip (cls : N -> bool) (s : jsstring) : jsstring :=
  match s with
  | c :: s' => if cls c then skip cls s' else s
  | [] => []
  end.

Definition trimStart (s : jsstring) : jsstring := skip isWhiteSpace s.

Definition trimEnd (s : jsstring) : jsstring := rev (trimStart (rev s)).

(** [s.trim()] *)
Definition trim (s : jsstring) : jsstring := trimEnd (trimStart s).

(** [arr.join(sep)] *)
Fixpoint join (sep : jsstring) (arr : list jsstring) : jsstring :=
  match arr with
  | [] => []
  | [x] => x
  | x :: rest => x ++ sep ++ join sep rest
  end.

(** [text.split(/\r?\n/)]: the scan of [String.prototype.split] with the
    separator tried at every position from left to right; [cur] holds, in
    reverse, the code units since the end of the last separator. *)
Fixpoint split_from (cur : jsstring) (s : jsstring) : list jsstring :=
  match s with
  | [] => [rev cur]
  | c :: s' =>
      if (c =? 10)%N then rev cur :: split_from [] s'
      else match s' with
           | d :: s'' =>
               if ((c =? 13) && (d =? 10))%N then rev cur :: split_from [] s''
               else split_from (c :: cur) s'
           | [] => split_from (c :: cur) s'
           end
  end.

Definition split_lines (text : jsstring) : list jsstring := split_from [] text.

(** [s.slice(0, n)] for [0 <= n] *)
Definition slice0 (n : nat) (s : jsstring) : jsstring := take n s.

End Js.

(** ** Regular expressions

    The three patterns of the source are sequences of quantified character
    classes and one literal, anchored at the start of the input.  [Re.run]
    is the backtracking matcher: a greedy quantifier takes the longest run
    first and gives characters back while the rest of the pattern fails. *)

Module Re.

Inductive atom : Type :=
| Plus (cls : N -> bool)                (* c+ *)
| Star (cls : N -> bool)                (* c* *)
| Count (n : nat) (cls : N -> bool)     (* c{n} *)
| Lit (s : jsstring).                   (* literal text *)

(** A continuation receives the input that is left and returns what is
    left after the whole match, or fails. *)
Definition cont := jsstring -> option jsstring.

Fixpoint m_star (cls : N -> bool) (k : cont) (s : jsstring) : option jsstring :=
  match s with
  | c :: s' =>
      if cls c then
        match m_star cls k s' with
        | Some r => Some r
        | None => k s
        end
      else k s
  | [] => k []
  end.

Definition m_plus (cls : N -> bool) (k : cont) (s : jsstring) : option jsstring :=
  match s with
  | c :: s' => if cls c then m_star cls k s' else None
  | [] => None
  end.

Fixpoint m_count (n : nat) (cls : N -> bool) (k : cont) (s : jsstring)
  : option jsstring :=
  match n with
  | O => k s
  | S n' =>
      match s with
      | c :: s' => if cls c then m_count n' cls k s' else None
      | [] => None
      end
  end.

Fixpoint m_lit (lit : jsstring) (k : cont) (s : jsstring) : option jsstring :=
  match lit with
  | [] => k s
  | a :: lit' =>
      match s with
      | c :: s' => if (a =? c)%N then m_lit lit' k s' else None
      | [] => None
      end
  end.

Definition m_atom (a : atom) : cont -> cont :=
  match a with
  | Plus cls => m_plus cls
  | Star cls => m_star cls
  | Count n cls => m_count n cls
  | Lit s => m_lit s
  end.

Fixpoint m_seq (re : list atom) (k : cont) : cont :=
  match re with
  | [] => k
  | a :: re' => m_atom a (m_seq re' k)
  end.

(** The match of [/^re/] against [s]: the input after the match. *)
Definition run (re : list atom) (s : jsstring) : option jsstring :=
  m_seq re Some s.

(** [/^re/.test(s)] *)
Definition test (re : list atom) (s : jsstring) : bool :=
  match run re s with Some _ => true | None => false end.

(** [s.replace(/^re/, '')] *)
Definition replace_empty (re : list atom) (s : jsstring) : jsstring :=
  match run re s with Some rest => rest | None => s end.

End Re.

(** ** [extractMatplotlibPreamble] *)

(** [/^%+\s*Matplotlib used the following preamble/] *)
Definition re_marker : list Re.atom :=
  [Re.Plus Js.isPercent; Re.Star Js.isWhiteSpace;
   Re.Lit (js "Matplotlib used the following preamble")].

(** [/^%+\s{3}/] *)
Definition re_indent : list Re.atom :=
  [Re.Plus Js.isPercent; Re.Count 3 Js.isWhiteSpace].

(** [/^\s*%+\s*/] *)
Definition re_prefix : list Re.atom :=
  [Re.Star Js.isWhiteSpace; Re.Plus Js.isPercent; Re.Star Js.isWhiteSpace].

Definition is_marker (line : jsstring) : bool := Re.test re_marker line.
Definition is_indented (line : jsstring) : bool := Re.test re_indent line.
Definition strip_prefix (line : jsstring) : jsstring := Re.replace_empty re_prefix line.

(** The first loop: [start] is one past the index of the first marker line;
    [None] stands for the initial [-1]. *)
Fixpoint find_start (i : nat) (lines : list jsstring) : option nat :=
  match lines with
  | [] => None
  | line :: rest => if is_marker line then Some (i + 1) else find_start (S i) rest
  end.

(** The second loop, over the lines from index [start] on. *)
Fixpoint collect (lines : list jsstring) : list jsstring :=
  match lines with
  | [] => []
  | line :: rest =>
      if negb (is_indented line) then []
      else strip_prefix line :: collect rest
  end.

Definition extractMatplotlibPreamble (text : jsstring) : option jsstring :=
  let lines := Js.split_lines text in
  match find_start 0 lines with
  | None => None
  | Some start =>
      let out := collect (drop start lines) in
      let result := Js.trim (Js.join [10%N] out) in
      if (0 <? length result)%nat then Some result else None
  end.

(** A file as Matplotlib writes it, with a CRLF after the marker line. *)
Definition sample_text : jsstring :=
  js "%% Creator: Matplotlib" ++ [10%N] ++
  js "%% Matplotlib used the following preamble" ++ [13%N; 10%N] ++
  js "%%   \usepackage{fontspec}" ++ [10%N] ++
  js "%%   \setmainfont{DejaVu Serif}" ++ [10%N] ++
  js "%%" ++ [10%N] ++
  js "\begingroup" ++ [10%N].


(** ** Errors, the world, and the monad of the asynchronous functions *)

(** An [Error] object: what [execFile], the [fs] promises and [new Error]
    throw. *)
Record JsError : Type := mkError { err_name : jsstring; err_message : jsstring }.

(** [new Error(msg)] *)
Definition new_Error (msg : jsstring) : JsError :=
  {| err_name := js "Error"; err_message := msg |}.

(** [Error.prototype.toString] *)
Definition error_toString (e : JsError) : jsstring :=
  match err_name e, err_message e with
  | [], m => m
  | n, [] => n
  | n, m => n ++ js ": " ++ m
  end.

(** [String(err.message || err)]: the empty message is falsy. *)
Definition message_or_string (e : JsError) : jsstring :=
  match err_message e with
  | [] => error_toString e
  | m => m
  end.

(** The file system: regular files with their text, directories, and the
    paths whose read fails (permissions, I/O errors). *)
Record FS : Type := mkFS {
  files : gmap jsstring jsstring;
  dirs : gset jsstring;
  unreadable : gset jsstring
}.

(** One [execFile] call. *)
Record Spawn : Type := mkSpawn {
  cmd : jsstring;
  args : list jsstring;
  cwd : option jsstring
}.

(** The webview panel handed to [resolveCustomEditor]. *)
Record Panel : Type := mkPanel {
  html : jsstring;
  localResourceRoots : list jsstring;
  disposed : bool
}.

Record World : Type := mkWorld {
  fs : FS;
  spawned : list Spawn;        (* the processes run so far, oldest first *)
  panel : Panel;
  opened : list jsstring       (* files opened through [vscode.open] *)
}.

Inductive result (A : Type) : Type :=
| Ok (a : A)
| Throw (e : JsError).
Arguments Ok {A} a.
Arguments Throw {A} e.

Definition M (A : Type) : Type := World -> result A * World.

#[global] Instance M_ret : MRet M := fun A a w => (Ok a, w).

#[global] Instance M_bind : MBind M := fun A B f m w =>
  match m w with
  | (Ok a, w') => f a w'
  | (Throw e, w') => (Throw e, w')
  end.

Definition throw {A : Type} (e : JsError) : M A := fun w => (Throw e, w).

(** [try { body } catch (e) { handler }] *)
Definition try_catch {A : Type} (body : M A) (handler : JsError -> M A) : M A :=
  fun w =>
    match body w with
    | (Ok a, w') => (Ok a, w')
    | (Throw e, w') => handler e w'
    end.

(** What the program takes from Node, the operating system and the editor:
    the [path] and [os] functions, the name [mkdtemp] draws, the external
    programs, the webview's URI translation, and how the editor answers
    [vscode.open] for a file and [dispose] for the panel ([None] when the
    call returns, the error when it is rejected). *)
Class Env : Type := mkEnv {
  tmpdir : jsstring;
  path_join : jsstring -> jsstring -> jsstring;
  basename : jsstring -> jsstring;
  basename_ext : jsstring -> jsstring -> jsstring;
  extname : jsstring -> jsstring;
  mkdtemp_suffix : FS -> jsstring;
  run_process : Spawn -> FS -> option JsError * FS;
  asWebviewUri : jsstring -> jsstring;
  host_open : jsstring -> FS -> option JsError;
  host_dispose : Panel -> option JsError
}.

Definition exists_path (p : jsstring) (f : FS) : bool :=
  bool_decide (p ∈ dom (files f)) || bool_decide (p ∈ dirs f).

Definition set_fs (f : FS) (w : World) : World :=
  {| fs := f; spawned := spawned w; panel := panel w; opened := opened w |}.

Definition set_panel (p : Panel) (w : World) : World :=
  {| fs := fs w; spawned := spawned w; panel := p; opened := opened w |}.

Definition system_error (code : string) : JsError :=
  {| err_name := js "Error"; err_message := js code |}.

Section Primitives.
Context `{E : Env}.

(** [fs.promises.mkdtemp(prefix)]: a directory that did not exist. *)
Definition mkdtemp (prefix : jsstring) : M jsstring := fun w =>
  let p := prefix ++ mkdtemp_suffix (fs w) in
  if exists_path p (fs w) then (Throw (system_error "EEXIST"), w)
  else (Ok p, set_fs {| files := files (fs w);
                        dirs := {[p]} ∪ dirs (fs w);
                        unreadable := unreadable (fs w) |} w).

(** [fs.promises.readFile(p, 'utf8')] *)
Definition readFile (p : jsstring) : M jsstring := fun w =>
  if bool_decide (p ∈ unreadable (fs w)) then (Throw (system_error "EACCES"), w)
  else match files (fs w) !! p with
       | Some text => (Ok text, w)
       | None => (Throw (system_error "ENOENT"), w)
       end.

(** [fs.promises.writeFile(p, text, 'utf8')] *)
Definition writeFile (p : jsstring) (text : jsstring) : M unit := fun w =>
  if bool_decide (p ∈ dirs (fs w)) then (Throw (system_error "EISDIR"), w)
  else (Ok tt, set_fs {| files := <[p := text]> (files (fs w));
                         dirs := dirs (fs w);
                         unreadable := unreadable (fs w) |} w).

(** [fs.promises.copyFile(src, dst)] *)
Definition copyFile (src dst : jsstring) : M unit :=
  text ← readFile src; writeFile dst text.

(** [fs.existsSync(p)] *)
Definition existsSync (p : jsstring) : M bool := fun w =>
  (Ok (exists_path p (fs w)), w).

(** [execFileP(cmd, args, { cwd })]: rejects on a non-zero exit and when
    the program cannot be started. *)
Definition execFileP (c : jsstring) (a : list jsstring) (d : option jsstring)
  : M unit := fun w =>
  let sp := {| cmd := c; args := a; cwd := d |} in
  let '(r, f') := run_process sp (fs w) in
  let w' := {| fs := f'; spawned := spawned w ++ [sp];
               panel := panel w; opened := opened w |} in
  match r with
  | None => (Ok tt, w')
  | Some e => (Throw e, w')
  end.

(** [webviewPanel.webview.options = { ..., localResourceRoots: roots }] *)
Definition set_options (roots : list jsstring) : M unit := fun w =>
  (Ok tt, set_panel {| html := html (panel w); localResourceRoots := roots;
                       disposed := disposed (panel w) |} w).

(** [webviewPanel.webview.html = text] *)
Definition set_html (text : jsstring) : M unit := fun w =>
  (Ok tt, set_panel {| html := text;
                       localResourceRoots := localResourceRoots (panel w);
                       disposed := disposed (panel w) |} w).

(** [webviewPanel.dispose()]: the panel is disposed of when the call
    returns; when it throws, the panel is as it was. *)
Definition dispose : M unit := fun w =>
  match host_dispose (panel w) with
  | None =>
      (Ok tt, set_panel {| html := html (panel w);
                           localResourceRoots := localResourceRoots (panel w);
                           disposed := true |} w)
  | Some e => (Throw e, w)
  end.

(** [await vscode.commands.executeCommand('vscode.open', Uri.file(p))]: the
    editor shows the file when the command resolves. *)
Definition open_image (p : jsstring) : M unit := fun w =>
  match host_open p (fs w) with
  | None =>
      (Ok tt, {| fs := fs w; spawned := spawned w; panel := panel w;
                 opened := opened w ++ [p] |})
  | Some e => (Throw e, w)
  end.

End Primitives.

(** ** [compilePgfToPdf] *)

Definition nl : jsstring := [10%N].

(** The template literal [texContent]. *)
Definition texContent (srcPath : jsstring) (matplotlibPreamble : option jsstring)
  : jsstring :=
  js "\documentclass[border=1mm]{standalone}" ++ nl ++
  js "\usepackage{pgf}" ++ nl ++
  js "\usepackage{lmodern}" ++ nl ++
  match matplotlibPreamble with
  | Some (c :: p) => (c :: p) ++ nl
  | _ => []
  end ++
  js "\begin{document}" ++ nl ++
  js "\input{" ++ srcPath ++ js "}" ++ nl ++
  js "\end{document}" ++ nl.

(** [(log && log.length > 200) ? log.slice(0,200) + '...'
                               : log || String(err.message || err)] *)
Definition short_log (log : jsstring) (err : JsError) : jsstring :=
  if (match log with [] => false | _ => true end) && (200 <? length log)%nat
  then Js.slice0 200 log ++ js "..."
  else match log with
       | [] => message_or_string err
       | _ => log
       end.

Definition pdf_not_produced : JsError :=
  new_Error (js "PDF not produced. Ensure `pdflatex` is installed.").

Section Pipeline.
Context `{E : Env}.

(** The rest of [compilePgfToPdf] once the document is written: the
    [pdflatex] call with its handler, and the check for the PDF that
    follows it. *)
Definition run_pdflatex (tmpRoot base texName : jsstring)
  : M (jsstring * jsstring) :=
  _ ← try_catch
        (execFileP (js "pdflatex")
           [js "-interaction=batchmode"; js "-output-directory"; tmpRoot; texName]
           (Some tmpRoot))
        (fun err =>
           let logPath := path_join tmpRoot (base ++ js ".log") in
           log ← try_catch (readFile logPath) (fun _ => mret []);
           let short := short_log log err in
           throw (new_Error (js "Failed to build PGF: " ++ short)));
  let pdfPath := path_join tmpRoot (base ++ js ".pdf") in
  found ← existsSync pdfPath;
  if negb found then throw pdf_not_produced
  else mret (tmpRoot, pdfPath).

Definition compilePgfToPdf (srcPath : jsstring) : M (jsstring * jsstring) :=
  tmpRoot ← mkdtemp (path_join tmpdir (js "vscode-pgf-"));
  let base := basename_ext srcPath (extname srcPath) in
  let dstSrc := path_join tmpRoot (basename srcPath) in
  _ ← copyFile srcPath dstSrc;
  let texName := base ++ js ".tex" in
  let texPath := path_join tmpRoot texName in
  srcText ← try_catch (readFile dstSrc) (fun _ => mret []);
  let matplotlibPreamble := extractMatplotlibPreamble srcText in
  _ ← writeFile texPath (texContent srcPath matplotlibPreamble);
  run_pdflatex tmpRoot base texName.

(** ** [renderPdfToPng] *)

Definition no_rasterizer : JsError :=
  new_Error (js "No rasterizer found: please install pdftocairo, pdftoppm, or ImageMagick `convert`.").

(** One of the three blocks
    [try { await execFileP(...); if (fs.existsSync(pngPath)) { return pngPath; } } catch (e) { }]
    of [renderPdfToPng]: [Some p] when the function returns [p] from it,
    [None] when control falls through to what follows. *)
Definition attempt (c : jsstring) (a : list jsstring) (pngPath : jsstring)
  : M (option jsstring) :=
  try_catch
    (_ ← execFileP c a None;
     found ← existsSync pngPath;
     if found : bool then mret (Some pngPath) else mret None)
    (fun _ => mret None).

Definition renderPdfToPng (pdfPath tmpRoot : jsstring) : M jsstring :=
  let base := basename_ext pdfPath (extname pdfPath) in
  let outPrefix := path_join tmpRoot base in
  let pngPath := path_join tmpRoot (base ++ js ".png") in
  r1 ← attempt (js "pdftocairo") [js "-png"; js "-singlefile"; pdfPath; outPrefix] pngPath;
  match r1 with
  | Some p => mret p
  | None =>
      r2 ← attempt (js "pdftoppm") [js "-png"; js "-singlefile"; pdfPath; outPrefix] pngPath;
      match r2 with
      | Some p => mret p
      | None =>
          r3 ← attempt (js "convert") [js "-density"; js "300"; pdfPath; pngPath] pngPath;
          match r3 with
          | Some p => mret p
          | None => throw no_rasterizer
          end
      end
  end.

(** ** [PgfViewerProvider.resolveCustomEditor] *)

Definition quote : jsstring := [34%N].

(** The page of the inner handler. *)
Definition fallback_page (pdfUri : jsstring) (e : JsError) : jsstring :=
  js "<html><body><p>Could not rasterize PDF: " ++ message_or_string e ++
  js "</p><p><a href=" ++ quote ++ pdfUri ++ quote ++
  js ">Open PDF externally</a></p></body></html>".

(** The page of the outer handler. *)
Definition error_page (err : JsError) : jsstring :=
  js "<html><body><pre>Error: " ++ message_or_string err ++
  js "</pre></body></html>".

Definition resolveCustomEditor (srcPath : jsstring) : M unit :=
  try_catch
    ('(tmpRoot, pdfPath) ← compilePgfToPdf srcPath;
     _ ← set_options [tmpRoot];
     try_catch
       (pngPath ← renderPdfToPng pdfPath tmpRoot;
        _ ← open_image pngPath;
        _ ← try_catch dispose (fun _ => mret tt);
        mret tt)
       (fun e =>
          let pdfUri := asWebviewUri pdfPath in
          set_html (fallback_page pdfUri e)))
    (fun err => set_html (error_page err)).

End Pipeline.

(** ** Vocabulary of the statements *)

(** The [execFile] calls the source makes. *)
Definition pdflatex_call (tmpRoot texName : jsstring) : Spawn :=
  {| cmd := js "pdflatex";
     args := [js "-interaction=batchmode"; js "-output-directory"; tmpRoot; texName];
     cwd := Some tmpRoot |}.

Definition pdftocairo_call (pdfPath outPrefix : jsstring) : Spawn :=
  {| cmd := js "pdftocairo";
     args := [js "-png"; js "-singlefile"; pdfPath; outPrefix];
     cwd := None |}.

Definition pdftoppm_call (pdfPath outPrefix : jsstring) : Spawn :=
  {| cmd := js "pdftoppm";
     args := [js "-png"; js "-singlefile"; pdfPath; outPrefix];
     cwd := None |}.

Definition convert_call (pdfPath pngPath : jsstring) : Spawn :=
  {| cmd := js "convert";
     args := [js "-density"; js "300"; pdfPath; pngPath];
     cwd := None |}.

(** The world after a process has run. *)
Definition after_spawn (sp : Spawn) (f' : FS) (w : World) : World :=
  {| fs := f'; spawned := spawned w ++ [sp]; panel := panel w; opened := opened w |}.

(** An attempt of [renderPdfToPng] fails when the program is rejected or
    leaves no file at [pngPath]. *)
Definition attempt_fails `{E : Env} (sp : Spawn) (pngPath : jsstring) (f : FS) : bool :=
  match run_process sp f with
  | (Some _, _) => true
  | (None, f') => negb (exists_path pngPath f')
  end.

(** [srcText] after the guarded read of the copy. *)
Definition source_text `{E : Env} (dstSrc : jsstring) (w : World) : jsstring :=
  match readFile dstSrc w with
  | (Ok text, _) => text
  | (Throw _, _) => []
  end.

(** The run of [compilePgfToPdf srcPath] from [w] gets as far as the engine:
    the workspace [tmpRoot] is allocated, the source copied and the document
    written, which leaves the world [w3]. *)
Definition reaches_engine `{E : Env} (srcPath : jsstring) (w : World)
    (tmpRoot : jsstring) (w3 : World) : Prop :=
  exists w1 w2,
    mkdtemp (path_join tmpdir (js "vscode-pgf-")) w = (Ok tmpRoot, w1) /\
    copyFile srcPath (path_join tmpRoot (basename srcPath)) w1 = (Ok tt, w2) /\
    writeFile
      (path_join tmpRoot (basename_ext srcPath (extname srcPath) ++ js ".tex"))
      (texContent srcPath
         (extractMatplotlibPreamble
            (source_text (path_join tmpRoot (basename srcPath)) w2)))
      w2 = (Ok tt, w3).

(** [base]: the source's file name without its extension. *)
Definition source_base `{E : Env} (srcPath : jsstring) : jsstring :=
  basename_ext srcPath (extname srcPath).

(** The world in which the engine starts, when the steps before it succeed. *)
Definition at_engine `{E : Env} (srcPath : jsstring) (w : World) : World :=
  match mkdtemp (path_join tmpdir (js "vscode-pgf-")) w with
  | (Ok tmpRoot, w1) =>
      let w2 := (copyFile srcPath (path_join tmpRoot (basename srcPath)) w1).2 in
      (writeFile (path_join tmpRoot (source_base srcPath ++ js ".tex"))
         (texContent srcPath
            (extractMatplotlibPreamble
               (source_text (path_join tmpRoot (basename srcPath)) w2))) w2).2
  | (Throw _, w1) => w1
  end.

(** Every path that exists in [f] exists in [f']. *)
Definition fs_le (f f' : FS) : Prop :=
  forall p, exists_path p f = true -> exists_path p f' = true.

(** A computation whose final world is related by [R] to the world it
    starts in, whatever that is. *)
Definition stable {A : Type} (R : World -> World -> Prop) (m : M A) : Prop :=
  forall w, R w (m w).2.

(** No path is lost between two worlds. *)
Definition no_loss (w w' : World) : Prop := fs_le (fs w) (fs w').

(** Nothing more has been handed to [vscode.open]. *)
Definition same_opened (w w' : World) : Prop := opened w' = opened w.

(** The external programs remove nothing. *)
Definition tools_keep `{E : Env} : Prop :=
  forall sp f, fs_le f (run_process sp f).2.

(** The directories are the same. *)
Definition same_dirs (w w' : World) : Prop := dirs (fs w') = dirs (fs w).

(** The external programs create no directory and remove none. *)
Definition tools_leave_dirs `{E : Env} : Prop :=
  forall sp f, dirs (run_process sp f).2 = dirs f.

(** The page of the panel is the one it had. *)
Definition same_html (w w' : World) : Prop := html (panel w') = html (panel w).





(** ** A concrete environment

    POSIX-like paths, a fixed [mkdtemp] name and scripted external programs,
    to run the definitions on. *)

Module Demo.

Definition slash : N := 47.
Definition dot : N := 46.

Fixpoint before (c : N) (s : jsstring) : jsstring :=
  match s with
  | [] => []
  | d :: s' => if (d =? c)%N then [] else d :: before c s'
  end.

Definition has (c : N) (s : jsstring) : bool :=
  existsb (fun d => (d =? c)%N) s.

Definition join2 (a b : jsstring) : jsstring := a ++ [slash] ++ b.

Definition base_of (p : jsstring) : jsstring := rev (before slash (rev p)).

Definition ext_of (p : jsstring) : jsstring :=
  let b := base_of p in
  if has dot b then dot :: rev (before dot (rev b)) else [].

Definition base_without (p ext : jsstring) : jsstring :=
  let b := base_of p in
  if bool_decide (ext <> [] /\ b <> ext /\ drop (length b - length ext) b = ext)
  then take (length b - length ext) b
  else b.

(** How the TeX engine behaves in a scenario. *)
Inductive tex : Type :=
| TexOk                         (* writes the PDF, exit 0 *)
| TexSilent                     (* exit 0, no PDF *)
| TexFail (log : option jsstring). (* non-zero exit, perhaps a log *)

Definition put (p text : jsstring) (f : FS) : FS :=
  {| files := <[p := text]> (files f); dirs := dirs f;
     unreadable := unreadable f |}.

Definition exit_error : JsError := new_Error (js "Command failed: exit code 1").

Definition process (t : tex) (cairo ppm conv : bool) (sp : Spawn) (f : FS)
  : option JsError * FS :=
  match args sp with
  | [_; _; a3; a4] =>
      if bool_decide (cmd sp = js "pdflatex") then
        let b := base_without a4 (js ".tex") in
        match t with
        | TexOk => (None, put (join2 a3 (b ++ js ".pdf")) (js "%PDF")
                            (put (join2 a3 (b ++ js ".log")) (js "ok") f))
        | TexSilent => (None, f)
        | TexFail (Some log) => (Some exit_error, put (join2 a3 (b ++ js ".log")) log f)
        | TexFail None => (Some exit_error, f)
        end
      else if bool_decide (cmd sp = js "pdftocairo") then
        if cairo then (None, put (a4 ++ js ".png") (js "PNG") f)
        else (Some exit_error, f)
      else if bool_decide (cmd sp = js "pdftoppm") then
        if ppm then (None, put (a4 ++ js ".png") (js "PNG") f)
        else (None, f)
      else if bool_decide (cmd sp = js "convert") then
        if conv then (None, put a4 (js "PNG") f)
        else (Some exit_error, f)
      else (Some (system_error "ENOENT"), f)
  | _ => (Some (system_error "ENOENT"), f)
  end.

Definition env (t : tex) (cairo ppm conv : bool) : Env :=
  {| tmpdir := js "/tmp";
     path_join := join2;
     basename := base_of;
     basename_ext := base_without;
     extname := ext_of;
     mkdtemp_suffix := fun _ => js "Ab3xYz";
     run_process := process t cairo ppm conv;
     asWebviewUri := fun p => js "vscode-resource:" ++ p;
     host_open := fun _ _ => None;
     host_dispose := fun _ => None |}.

Definition src : jsstring := js "/home/u/fig.pgf".
Definition root : jsstring := js "/tmp/vscode-pgf-Ab3xYz".

Definition blank_panel : Panel :=
  {| html := []; localResourceRoots := []; disposed := false |}.

Definition world0 (text : jsstring) (locked : gset jsstring) : World :=
  {| fs := {| files := {[ src := text ]};
              dirs := {[ js "/tmp" ]};
              unreadable := locked |};
     spawned := [];
     panel := blank_panel;
     opened := [] |}.

Definition no_lock : gset jsstring := ∅.

(** A log of [n] code units. *)
Definition long_log (n : nat) : jsstring := replicate n 33%N.

End Demo.

(** ** Line ends *)

(** The text with every carriage return that stands before a line feed
    removed. *)
Fixpoint crlf_to_lf (s : jsstring) : jsstring :=
  match s with
  | [] => []
  | c :: s' =>
      match s' with
      | d :: _ => if ((c =? 13) && (d =? 10))%N then crlf_to_lf s' else c :: crlf_to_lf s'
      | [] => [c]
      end
  end.

(** The text with a carriage return put before every line feed. *)
Fixpoint lf_to_crlf (s : jsstring) : jsstring :=
  match s with
  | [] => []
  | c :: s' => if (c =? 10)%N then 13%N :: 10%N :: lf_to_crlf s' else c :: lf_to_crlf s'
  end.

(** The number of line feeds of a text. *)
Fixpoint lf_count (s : jsstring) : nat :=
  match s with
  | [] => 0
  | c :: s' => if (c =? 10)%N then S (lf_count s') else lf_count s'
  end.

(** The words of the marker line. *)
Definition marker_words : jsstring := js "Matplotlib used the following preamble".

(** Whether a string begins with a white-space character. *)
Definition starts_with_space (s : jsstring) : bool :=
  match s with
  | c :: _ => Js.isWhiteSpace c
  | [] => false
  end.

(** ** The command [vscode-pgf.viewPgf]

    The callback registered in [activate].  The editor state it reads and
    the answer of the open dialog are arguments; the result is the calls it
    makes into the editor, in order. *)

Record TextDocument : Type := mkTextDocument {
  isUntitled : bool;
  uri : jsstring
}.

(** [vscode.window.activeTextEditor], when defined; [document] is tested
    for truthiness by the callback. *)
Record TextEditor : Type := mkTextEditor {
  document : option TextDocument
}.

Record OpenDialogOptions : Type := mkOpenDialogOptions {
  canSelectMany : bool;
  openLabel : jsstring;
  filters : list (jsstring * list jsstring)
}.

Inductive HostCall : Type :=
| ShowOpenDialog (options : OpenDialogOptions)
| ExecuteCommand (command : jsstring) (arguments : list jsstring).

Definition pgf_dialog : OpenDialogOptions :=
  {| canSelectMany := false;
     openLabel := js "Open PGF";
     filters := [(js "PGF", [js "pgf"])] |}.

Definition open_with_viewer (fileUri : jsstring) : HostCall :=
  ExecuteCommand (js "vscode.openWith") [fileUri; js "vscode-pgf.viewer"].

Definition viewPgf (activeTextEditor : option TextEditor)
    (showOpenDialog : OpenDialogOptions -> option (list jsstring)) : list HostCall :=
  let fileUri :=
    match activeTextEditor with
    | Some editor =>
        match document editor with
        | Some doc => if negb (isUntitled doc) then Some (uri doc) else None
        | None => None
        end
    | None => None
    end in
  match fileUri with
  | Some u => [open_with_viewer u]
  | None =>
      match showOpenDialog pgf_dialog with
      | None => [ShowOpenDialog pgf_dialog]
      | Some [] => [ShowOpenDialog pgf_dialog]
      | Some (u :: _) => [ShowOpenDialog pgf_dialog; open_with_viewer u]
      end
  end.

(** The panel is the one it was. *)
Definition same_panel (w w' : World) : Prop := panel w' = panel w.

(** The files and the unreadable paths are the same. *)
Definition same_files (w w' : World) : Prop :=
  files (fs w') = files (fs w) /\ unreadable (fs w') = unreadable (fs w).

(** A second concrete environment, whose [mkdtemp] draws another name once
    the first is taken. *)
Definition demo_env_fresh : Env :=
  {| tmpdir := js "/tmp";
     path_join := Demo.join2;
     basename := Demo.base_of;
     basename_ext := Demo.base_without;
     extname := Demo.ext_of;
     mkdtemp_suffix := fun f =>
       if exists_path (js "/tmp/vscode-pgf-Ab3xYz") f then js "Qr7LmN" else js "Ab3xYz";
     run_process := Demo.process Demo.TexOk true true true;
     asWebviewUri := fun p => js "vscode-resource:" ++ p;
     host_open := fun _ _ => None;
     host_dispose := fun _ => None |}.

(** A third one: every program succeeds, and the editor rejects
    [vscode.open] and throws from [dispose]. *)
Definition open_rejected : JsError := new_Error (js "Unable to open the file").

Definition demo_env_host_fails : Env :=
  {| tmpdir := js "/tmp";
     path_join := Demo.join2;
     basename := Demo.base_of;
     basename_ext := Demo.base_without;
     extname := Demo.ext_of;
     mkdtemp_suffix := fun _ => js "Ab3xYz";
     run_process := Demo.process Demo.TexOk true true true;
     asWebviewUri := fun p => js "vscode-resource:" ++ p;
     host_open := fun _ _ => Some open_rejected;
     host_dispose := fun _ => Some (new_Error (js "Webview is disposed")) |}.

(** * Properties *)

(** ** Strings and patterns *)

Example split_crlf :
  Js.split_lines (js "a" ++ [13; 10] ++ js "b" ++ [10] ++ [13] ++ js "c")%N
  = [js "a"; js "b"; [13%N] ++ js "c"].
Proof. reflexivity. Qed.

Example split_empty : Js.split_lines [] = [[]].
Proof. reflexivity. Qed.

Example trim_both : Js.trim ([9; 32] ++ js "a b" ++ [160; 10])%N = js "a b".
Proof. reflexivity. Qed.

Example marker_needs_percent :
  is_marker (js "Matplotlib used the following preamble") = false /\
  is_marker (js "%%Matplotlib used the following preamble:") = true /\
  is_marker (js "% matplotlib used the following preamble") = false.
Proof. by repeat split. Qed.

Example indent_needs_three :
  is_indented (js "%%   \usepackage{x}") = true /\
  is_indented (js "%%  \usepackage{x}") = false /\
  is_indented (js "   \usepackage{x}") = false.
Proof. by repeat split. Qed.

Example strip_indent : strip_prefix (js "%%    \usepackage{x} ") = js "\usepackage{x} ".
Proof. reflexivity. Qed.

Example sample_extract :
  extractMatplotlibPreamble sample_text =
  Some (js "\usepackage{fontspec}" ++ [10%N] ++ js "\setmainfont{DejaVu Serif}").
Proof. reflexivity. Qed.

Section StringFacts.

Lemma skip_head cls c s t : Js.skip cls s = c :: t -> cls c = false.
Proof.
  induction s as [|d s IH]; simpl; [discriminate|].
  destruct (cls d) eqn:Hd; [exact IH|].
  intros [= <- _]. exact Hd.
Qed.

Lemma skip_idem cls s : Js.skip cls (Js.skip cls s) = Js.skip cls s.
Proof.
  destruct (Js.skip cls s) as [|c t] eqn:Hs; [reflexivity|].
  simpl. by rewrite (skip_head _ _ _ _ Hs).
Qed.

Lemma skip_fixed cls c s : cls c = false -> Js.skip cls (c :: s) = c :: s.
Proof. intros H. simpl. by rewrite H. Qed.

(** Dropping a prefix of a list does not change its last element. *)
Lemma skip_suffix cls s : exists p, s = p ++ Js.skip cls s.
Proof.
  induction s as [|c s [p Hp]]; [by exists []|].
  simpl. destruct (cls c).
  - exists (c :: p). simpl. by rewrite <- Hp.
  - by exists [].
Qed.

Lemma trimStart_trimEnd_fixed s :
  Js.trimStart (Js.trimEnd (Js.trimStart s)) = Js.trimEnd (Js.trimStart s).
Proof.
  unfold Js.trimEnd, Js.trimStart.
  destruct (Js.skip Js.isWhiteSpace s) as [|c t] eqn:Hs; [reflexivity|].
  pose proof (skip_head _ _ _ _ Hs) as Hc.
  destruct (skip_suffix Js.isWhiteSpace (rev (c :: t))) as [p Hp].
  set (z := Js.skip Js.isWhiteSpace (rev (c :: t))) in *.
  assert (Hrev : c :: t = rev z ++ rev p).
  { rewrite <- rev_app_distr, <- Hp. by rewrite rev_involutive. }
  destruct (rev z) as [|d u] eqn:Hz; [reflexivity|].
  simpl in Hrev. injection Hrev as <- _.
  simpl. by rewrite Hc.
Qed.

Lemma trim_idem s : Js.trim (Js.trim s) = Js.trim s.
Proof.
  unfold Js.trim at 1. rewrite (trimStart_trimEnd_fixed s : Js.trimStart (Js.trim s) = _).
  unfold Js.trim, Js.trimEnd. rewrite rev_involutive.
  unfold Js.trimStart at 1. by rewrite skip_idem.
Qed.

(** A trimmed string that is not empty neither begins nor ends with
    white space. *)
Lemma trim_head s c t : Js.trim s = c :: t -> Js.isWhiteSpace c = false.
Proof.
  intros H. pose proof (trimStart_trimEnd_fixed s) as Hf.
  change (Js.trimEnd (Js.trimStart s)) with (Js.trim s) in Hf.
  rewrite H in Hf. unfold Js.trimStart in Hf. simpl in Hf.
  destruct (Js.isWhiteSpace c) eqn:Hc; [|reflexivity].
  exfalso. destruct (skip_suffix Js.isWhiteSpace t) as [p Hp].
  rewrite Hf in Hp. apply (f_equal length) in Hp.
  rewrite length_app in Hp. simpl in Hp. lia.
Qed.

Lemma trim_last s c t : Js.trim s = t ++ [c] -> Js.isWhiteSpace c = false.
Proof.
  unfold Js.trim, Js.trimEnd. intros H.
  apply (f_equal (@rev N)) in H. rewrite rev_involutive, rev_app_distr in H.
  simpl in H. exact (skip_head _ _ _ _ H).
Qed.

End StringFacts.

(** The backtracking matcher on the patterns of the source: every
    quantifier there is followed by something that cannot start with a
    character of its class, so the greedy choice is the only one. *)

Section PatternFacts.

Lemma m_star_greedy cls (k : Re.cont) s :
  (forall c t, cls c = true -> k (c :: t) = None) ->
  Re.m_star cls k s = k (Js.skip cls s).
Proof.
  intros Hk. induction s as [|c s IH]; simpl; [reflexivity|].
  destruct (cls c) eqn:Hc; [|reflexivity].
  rewrite IH. destruct (k (Js.skip cls s)) eqn:Hr; [reflexivity|].
  by apply Hk.
Qed.

Lemma m_star_last cls s : Re.m_star cls Some s = Some (Js.skip cls s).
Proof.
  induction s as [|c s IH]; simpl; [reflexivity|].
  destruct (cls c); [by rewrite IH | reflexivity].
Qed.

Lemma white_not_percent c : Js.isWhiteSpace c = true -> Js.isPercent c = false.
Proof.
  unfold Js.isWhiteSpace, Js.isPercent. intros H.
  destruct (N.eqb_spec c 37) as [->|]; [discriminate H | reflexivity].
Qed.

Lemma percent_not_white c : Js.isPercent c = true -> Js.isWhiteSpace c = false.
Proof.
  intros H. destruct (Js.isWhiteSpace c) eqn:Hw; [|reflexivity].
  apply white_not_percent in Hw. congruence.
Qed.

Lemma m_star_success cls (k : Re.cont) s r :
  k (Js.skip cls s) = Some r -> Re.m_star cls k s = Some r.
Proof.
  induction s as [|c s IH]; simpl; [done|].
  destruct (cls c) eqn:Hc; [|done].
  intros H. by rewrite (IH H).
Qed.

(** [/^%+\s{3}/]: some percent signs, then three white-space characters. *)
Lemma is_indented_spec line :
  is_indented line =
  match line with
  | c :: r =>
      Js.isPercent c &&
      match Js.skip Js.isPercent r with
      | a :: b :: d :: _ => Js.isWhiteSpace a && Js.isWhiteSpace b && Js.isWhiteSpace d
      | _ => false
      end
  | [] => false
  end.
Proof.
  unfold is_indented, Re.test, Re.run, re_indent. simpl.
  destruct line as [|c r]; [reflexivity|]. simpl.
  destruct (Js.isPercent c); [|reflexivity]. simpl.
  rewrite m_star_greedy.
  - destruct (Js.skip Js.isPercent r) as [|a [|b [|d t]]]; simpl;
      repeat destruct (Js.isWhiteSpace _); reflexivity.
  - intros a t Ha. simpl. by rewrite (percent_not_white _ Ha).
Qed.

(** [/^\s*%+\s*/] on a line that starts with a percent sign: the percent
    signs go, then all the white space after them. *)
Lemma strip_prefix_percent c r :
  Js.isPercent c = true ->
  strip_prefix (c :: r) = Js.skip Js.isWhiteSpace (Js.skip Js.isPercent r).
Proof.
  intros Hc. unfold strip_prefix, Re.replace_empty, Re.run, re_prefix.
  cbn [Re.m_seq Re.m_atom].
  erewrite m_star_success; [reflexivity|].
  rewrite (skip_fixed _ _ _ (percent_not_white _ Hc)).
  simpl. rewrite Hc.
  apply m_star_success, m_star_last.
Qed.

Lemma strip_prefix_indented line :
  is_indented line = true ->
  strip_prefix line = Js.skip Js.isWhiteSpace (Js.skip Js.isPercent line).
Proof.
  rewrite is_indented_spec. destruct line as [|c r]; [discriminate|].
  intros [Hc _]%andb_prop. rewrite (strip_prefix_percent _ _ Hc).
  simpl. by rewrite Hc.
Qed.

(** Whether [s] starts with [lit]. *)
Lemma m_lit_last lit s :
  Re.m_lit lit Some s =
  if bool_decide (take (length lit) s = lit) then Some (drop (length lit) s) else None.
Proof.
  revert s. induction lit as [|a lit IH]; intros s; simpl.
  - by rewrite drop_0.
  - destruct s as [|c s]; simpl; [done|].
    destruct (N.eqb_spec a c) as [->|Hne].
    + rewrite IH. repeat case_bool_decide; congruence.
    + rewrite bool_decide_eq_false_2; [done | congruence].
Qed.

Lemma m_lit_head a0 lit (k : Re.cont) a t :
  Re.m_lit (a0 :: lit) k (a :: t) <> None -> a = a0.
Proof.
  cbn [Re.m_lit]. destruct (N.eqb_spec a0 a); [done | congruence].
Qed.

(** [/^%+\s*Matplotlib used the following preamble/]: percent signs, any
    white space, then the words. *)
Lemma is_marker_spec line :
  is_marker line =
  match line with
  | c :: r =>
      Js.isPercent c &&
      let rest := Js.skip Js.isWhiteSpace (Js.skip Js.isPercent r) in
      bool_decide (take 38 rest = js "Matplotlib used the following preamble")
  | [] => false
  end.
Proof.
  unfold is_marker, Re.test, Re.run, re_marker. cbn [Re.m_seq Re.m_atom].
  destruct line as [|c r]; [reflexivity|]. cbn [Re.m_plus].
  destruct (Js.isPercent c); [|reflexivity]. cbn [andb].
  assert (Hlit : forall a t, Re.m_lit (js "Matplotlib used the following preamble") Some (a :: t) <> None
                             -> a = 77%N).
  { intros a t.
    change (js "Matplotlib used the following preamble")
      with (77%N :: js "atplotlib used the following preamble").
    apply m_lit_head. }
  rewrite m_star_greedy.
  - rewrite m_star_greedy.
    + rewrite m_lit_last. change (length (js _)) with 38%nat.
      by case_bool_decide.
    + intros a t Ha.
      destruct (Re.m_lit _ Some (a :: t)) eqn:Hm; [|reflexivity].
      assert (a = 77%N) as -> by (apply (Hlit a t); congruence).
      discriminate Ha.
  - intros a t Ha. cbn [Re.m_star]. rewrite (percent_not_white _ Ha).
    destruct (Re.m_lit _ Some (a :: t)) eqn:Hm; [|reflexivity].
    assert (a = 77%N) as -> by (apply (Hlit a t); congruence).
    discriminate Ha.
Qed.

End PatternFacts.

(** ** The preamble extractor *)

Section Extractor.

Lemma find_start_none i lines :
  find_start i lines = None <-> Forall (fun l => is_marker l = false) lines.
Proof.
  revert i. induction lines as [|l lines IH]; intros i; simpl.
  - split; [constructor | reflexivity].
  - destruct (is_marker l) eqn:Hl.
    + split; [discriminate|]. intros H. inversion H; congruence.
    + rewrite IH. split; [by constructor | by inversion 1].
Qed.

Lemma find_start_first i pre m rest :
  Forall (fun l => is_marker l = false) pre ->
  is_marker m = true ->
  find_start i (pre ++ m :: rest) = Some (i + length pre + 1)%nat.
Proof.
  intros Hpre Hm. revert i.
  induction Hpre as [|l pre Hl _ IH]; intros i; simpl.
  - rewrite Hm. f_equal. lia.
  - rewrite Hl, IH. f_equal. lia.
Qed.

Lemma drop_past_marker (pre : list jsstring) m tl :
  drop (length pre + 1) (pre ++ m :: tl) = tl.
Proof.
  replace (pre ++ m :: tl) with ((pre ++ [m]) ++ tl) by by rewrite <- app_assoc.
  replace (length pre + 1)%nat with (length (pre ++ [m])).
  - by rewrite drop_app_length.
  - by rewrite length_app.
Qed.

(** The second loop takes the longest run of indented lines and nothing
    after it. *)
Lemma collect_block block rest :
  Forall (fun l => is_indented l = true) block ->
  match rest with [] => True | l :: _ => is_indented l = false end ->
  collect (block ++ rest) = strip_prefix <$> block.
Proof.
  intros Hb Hrest. induction Hb as [|l block Hl _ IH]; simpl.
  - destruct rest as [|l rest]; [reflexivity|]. simpl. by rewrite Hrest.
  - by rewrite Hl, IH.
Qed.

Lemma collect_length_le lines : (length (collect lines) <= length lines)%nat.
Proof.
  induction lines as [|l lines IH]; simpl; [lia|].
  destruct (is_indented l); simpl; lia.
Qed.

(** What the function returns once the lines are known to be a first
    marker line, a run of indented lines, and a remainder that does not
    continue the run. *)
Lemma extract_block text pre m block rest :
  Js.split_lines text = pre ++ m :: block ++ rest ->
  Forall (fun l => is_marker l = false) pre ->
  is_marker m = true ->
  Forall (fun l => is_indented l = true) block ->
  match rest with [] => True | l :: _ => is_indented l = false end ->
  extractMatplotlibPreamble text =
  match Js.trim (Js.join nl (strip_prefix <$> block)) with
  | [] => None
  | c :: b => Some (c :: b)
  end.
Proof.
  intros Hsplit Hpre Hm Hblock Hrest. unfold extractMatplotlibPreamble.
  rewrite Hsplit, (find_start_first 0 _ _ _ Hpre Hm). cbn [Nat.add].
  rewrite drop_past_marker, (collect_block _ _ Hblock Hrest).
  fold nl. by destruct (Js.trim _).
Qed.

Lemma extract_no_marker text :
  Forall (fun l => is_marker l = false) (Js.split_lines text) ->
  extractMatplotlibPreamble text = None.
Proof.
  intros H. unfold extractMatplotlibPreamble.
  by rewrite (proj2 (find_start_none 0 _) H).
Qed.

End Extractor.

(** C1, as the code has it: for every source text whose lines are a first
    marker line followed by a maximal run of lines matching the
    comment-prefixed-with-three-spaces pattern, [extractMatplotlibPreamble]
    returns the de-commented, trimmed block (the run with the comment prefix
    stripped from each line, joined with newline, trimmed) when that block is
    not empty, and [null] when it is empty; for every text with no marker
    line it returns [null]. *)
Theorem extract_marked_block (text : jsstring) :
  (Forall (fun l => is_marker l = false) (Js.split_lines text) ->
   extractMatplotlibPreamble text = None) /\
  (forall pre m block rest,
     Js.split_lines text = pre ++ m :: block ++ rest ->
     Forall (fun l => is_marker l = false) pre ->
     is_marker m = true ->
     Forall (fun l => is_indented l = true) block ->
     match rest with [] => True | l :: _ => is_indented l = false end ->
     extractMatplotlibPreamble text =
     match Js.trim (Js.join nl (strip_prefix <$> block)) with
     | [] => None
     | c :: b => Some (c :: b)
     end).
Proof.
  split; [apply extract_no_marker | apply extract_block].
Qed.

Lemma extract_marked_block_witness :
  extractMatplotlibPreamble (js "\begingroup") = None /\
  extractMatplotlibPreamble sample_text =
  Some (js "\usepackage{fontspec}" ++ nl ++ js "\setmainfont{DejaVu Serif}").
Proof.
  split.
  - apply (proj1 (extract_marked_block (js "\begingroup"))).
    repeat constructor.
  - apply (proj2 (extract_marked_block sample_text)
             [js "%% Creator: Matplotlib"]
             (js "%% Matplotlib used the following preamble")
             [js "%%   \usepackage{fontspec}"; js "%%   \setmainfont{DejaVu Serif}"]
             [js "%%"; js "\begingroup"; []]).
    + reflexivity.
    + repeat constructor.
    + reflexivity.
    + repeat constructor.
    + reflexivity.
Defined.

(** C1 as stated fails where the marked block holds only blank comment
    lines: the de-commented, trimmed block is the empty string, and the
    function returns [null] instead of it. *)
Lemma extract_blank_block_null :
  let text := js "% Matplotlib used the following preamble" ++ nl ++ js "%   " in
  Js.split_lines text = [js "% Matplotlib used the following preamble"; js "%   "] /\
  is_marker (js "% Matplotlib used the following preamble") = true /\
  is_indented (js "%   ") = true /\
  Js.trim (Js.join nl (strip_prefix <$> [js "%   "])) = [] /\
  extractMatplotlibPreamble text = None /\
  extractMatplotlibPreamble text <>
  Some (Js.trim (Js.join nl (strip_prefix <$> [js "%   "]))).
Proof.
  repeat split; try reflexivity. discriminate.
Qed.

(** C7: when the marker line is followed by a run of indented comment lines
    and then by a line that does not match the
    comment-prefixed-with-three-spaces pattern, the lines collected are
    exactly the run: nothing at or after the non-matching line is collected,
    and the result does not depend on that line or on what follows it. *)
Theorem extract_stops_at_mismatch (text : jsstring) pre m block bad rest :
  Js.split_lines text = pre ++ m :: block ++ bad :: rest ->
  Forall (fun l => is_marker l = false) pre ->
  is_marker m = true ->
  Forall (fun l => is_indented l = true) block ->
  is_indented bad = false ->
  find_start 0 (Js.split_lines text) = Some (length pre + 1)%nat /\
  collect (drop (length pre + 1) (Js.split_lines text)) = strip_prefix <$> block /\
  length (collect (drop (length pre + 1) (Js.split_lines text))) = length block /\
  extractMatplotlibPreamble text =
  match Js.trim (Js.join nl (strip_prefix <$> block)) with
  | [] => None
  | c :: b => Some (c :: b)
  end.
Proof.
  intros Hsplit Hpre Hm Hblock Hbad.
  assert (Hc : collect (drop (length pre + 1) (Js.split_lines text))
               = strip_prefix <$> block).
  { rewrite Hsplit, drop_past_marker. by apply collect_block. }
  split; [|split; [|split]].
  - rewrite Hsplit. apply (find_start_first 0 _ _ _ Hpre Hm).
  - exact Hc.
  - rewrite Hc. apply length_fmap.
  - by apply (extract_block text pre m block (bad :: rest)).
Qed.

Lemma extract_stops_at_mismatch_witness :
  collect (drop 2 (Js.split_lines sample_text)) =
  [js "\usepackage{fontspec}"; js "\setmainfont{DejaVu Serif}"] /\
  extractMatplotlibPreamble sample_text =
  Some (js "\usepackage{fontspec}" ++ nl ++ js "\setmainfont{DejaVu Serif}").
Proof.
  assert (Hpre : Forall (fun l => is_marker l = false) [js "%% Creator: Matplotlib"])
    by (repeat constructor).
  assert (Hblock : Forall (fun l => is_indented l = true)
                     [js "%%   \usepackage{fontspec}"; js "%%   \setmainfont{DejaVu Serif}"])
    by (repeat constructor).
  pose proof (extract_stops_at_mismatch sample_text
                [js "%% Creator: Matplotlib"]
                (js "%% Matplotlib used the following preamble")
                [js "%%   \usepackage{fontspec}"; js "%%   \setmainfont{DejaVu Serif}"]
                (js "%%") [js "\begingroup"; []]
                eq_refl Hpre eq_refl Hblock eq_refl) as (_ & Hc & _ & He).
  split; [exact Hc | exact He].
Defined.

(** C8: [extractMatplotlibPreamble] returns on every input, and what it
    returns is either [null] or a string that is not empty and is its own
    trim; it returns [null] exactly when no line is a marker line or the
    block collected after the first marker line is empty once trimmed. *)
Theorem extract_total (text : jsstring) :
  (extractMatplotlibPreamble text = None \/
   exists r, extractMatplotlibPreamble text = Some r /\ r <> [] /\ Js.trim r = r) /\
  (extractMatplotlibPreamble text = None <->
   Forall (fun l => is_marker l = false) (Js.split_lines text) \/
   exists start, find_start 0 (Js.split_lines text) = Some start /\
     Js.trim (Js.join nl (collect (drop start (Js.split_lines text)))) = []).
Proof.
  unfold extractMatplotlibPreamble. fold nl.
  destruct (find_start 0 (Js.split_lines text)) as [start|] eqn:Hs.
  - cbv zeta.
    destruct (Js.trim (Js.join nl (collect (drop start (Js.split_lines text)))))
      as [|c r] eqn:Ht.
    + split; [by left|]. split; [|done]. intros _. right. by exists start.
    + cbn [length Nat.ltb Nat.leb]. split.
      * right. exists (c :: r). split; [done|]. split; [done|].
        rewrite <- Ht. apply trim_idem.
      * split; [done|]. intros [Hno | (s & Hs' & He)].
        -- apply find_start_none with (i := 0%nat) in Hno. congruence.
        -- congruence.
  - split; [by left|]. split; [|done]. intros _. left.
    by apply (find_start_none 0).
Qed.

(** ** The PDF compiler stage *)

Section Compile.
Context `{E : Env}.

Lemma short_log_long log err :
  (200 < length log)%nat ->
  short_log log err = take 200 log ++ js "..." /\
  length (short_log log err) = 203%nat.
Proof.
  intros H. unfold short_log, Js.slice0.
  destruct log as [|c log]; [simpl in H; lia|].
  rewrite (proj2 (Nat.ltb_lt _ _) H). cbn [andb].
  split; [reflexivity|].
  rewrite length_app, length_take. change (length (js "...")) with 3%nat.
  lia.
Qed.

Lemma short_log_short log err :
  log <> [] -> (length log <= 200)%nat -> short_log log err = log.
Proof.
  intros Hne H. unfold short_log.
  destruct log as [|c log]; [done|].
  by rewrite (proj2 (Nat.ltb_ge _ _) H).
Qed.

Lemma short_log_empty err : short_log [] err = message_or_string err.
Proof. reflexivity. Qed.

(** The stage when the engine is rejected: the log is read, or taken to
    be empty when that fails, and the shortened diagnostic is thrown. *)
Lemma run_pdflatex_rejected tmpRoot base texName w err f' :
  run_process (pdflatex_call tmpRoot texName) (fs w) = (Some err, f') ->
  run_pdflatex tmpRoot base texName w =
  (Throw (new_Error
            (js "Failed to build PGF: " ++
             short_log
               match readFile (path_join tmpRoot (base ++ js ".log"))
                       (after_spawn (pdflatex_call tmpRoot texName) f' w) with
               | (Ok log, _) => log
               | (Throw _, _) => []
               end err)),
   after_spawn (pdflatex_call tmpRoot texName) f' w).
Proof.
  intros Hrun.
  unfold run_pdflatex, mbind, M_bind, try_catch, execFileP, throw, mret, M_ret.
  fold (pdflatex_call tmpRoot texName). rewrite Hrun.
  fold (after_spawn (pdflatex_call tmpRoot texName) f' w).
  unfold readFile.
  destruct (bool_decide _); [reflexivity|].
  by destruct (files _ !! _).
Qed.

(** The stage when the engine returns: only the file on disk decides. *)
Lemma run_pdflatex_returned tmpRoot base texName w f' :
  run_process (pdflatex_call tmpRoot texName) (fs w) = (None, f') ->
  run_pdflatex tmpRoot base texName w =
  (if exists_path (path_join tmpRoot (base ++ js ".pdf")) f'
   then Ok (tmpRoot, path_join tmpRoot (base ++ js ".pdf"))
   else Throw pdf_not_produced,
   after_spawn (pdflatex_call tmpRoot texName) f' w).
Proof.
  intros Hrun.
  unfold run_pdflatex, mbind, M_bind, try_catch, execFileP, existsSync, throw, mret, M_ret.
  fold (pdflatex_call tmpRoot texName). rewrite Hrun.
  fold (after_spawn (pdflatex_call tmpRoot texName) f' w).
  cbn [fs after_spawn].
  by destruct (exists_path _ f').
Qed.

Lemma run_pdflatex_ok tmpRoot base texName w r w' :
  run_pdflatex tmpRoot base texName w = (Ok r, w') ->
  r = (tmpRoot, path_join tmpRoot (base ++ js ".pdf")) /\
  exists_path (snd r) (fs w') = true /\
  w' = after_spawn (pdflatex_call tmpRoot texName)
         (run_process (pdflatex_call tmpRoot texName) (fs w)).2 w.
Proof.
  destruct (run_process (pdflatex_call tmpRoot texName) (fs w)) as [[err|] f'] eqn:Hrun.
  - rewrite (run_pdflatex_rejected _ _ _ _ _ _ Hrun). discriminate.
  - rewrite (run_pdflatex_returned _ _ _ _ _ Hrun).
    destruct (exists_path _ f') eqn:Hex; [|discriminate].
    by intros [= <- <-].
Qed.

(** The steps of [compilePgfToPdf] up to the engine, once the workspace is
    allocated and the source copied. *)
Lemma compile_after_copy srcPath w tmpRoot w1 w2 :
  mkdtemp (path_join tmpdir (js "vscode-pgf-")) w = (Ok tmpRoot, w1) ->
  copyFile srcPath (path_join tmpRoot (basename srcPath)) w1 = (Ok tt, w2) ->
  compilePgfToPdf srcPath w =
  (let base := basename_ext srcPath (extname srcPath) in
   _ ← writeFile (path_join tmpRoot (base ++ js ".tex"))
         (texContent srcPath
            (extractMatplotlibPreamble
               (source_text (path_join tmpRoot (basename srcPath)) w2)));
   run_pdflatex tmpRoot base (base ++ js ".tex")) w2.
Proof.
  intros Hmk Hcp. unfold compilePgfToPdf.
  unfold mbind at 1, M_bind at 1. rewrite Hmk.
  unfold mbind at 1, M_bind at 1. rewrite Hcp.
  unfold mbind at 1, M_bind at 1. unfold try_catch at 1.
  cbv zeta. unfold source_text, readFile.
  destruct (bool_decide _); [reflexivity|].
  by destruct (files _ !! _).
Qed.

Lemma compile_at_engine srcPath w tmpRoot w3 :
  reaches_engine srcPath w tmpRoot w3 ->
  compilePgfToPdf srcPath w =
  run_pdflatex tmpRoot (basename_ext srcPath (extname srcPath))
    (basename_ext srcPath (extname srcPath) ++ js ".tex") w3.
Proof.
  intros (w1 & w2 & Hmk & Hcp & Hwr).
  rewrite (compile_after_copy _ _ _ _ _ Hmk Hcp).
  cbv zeta. unfold mbind at 1, M_bind at 1. by rewrite Hwr.
Qed.

Lemma compile_from_engine srcPath w tmpRoot w3 :
  reaches_engine srcPath w tmpRoot w3 ->
  compilePgfToPdf srcPath w =
  run_pdflatex tmpRoot (source_base srcPath) (source_base srcPath ++ js ".tex") w3.
Proof. apply compile_at_engine. Qed.

(** The primitives before the engine spawn nothing. *)
Lemma mkdtemp_spawned prefix w r w' :
  mkdtemp prefix w = (r, w') -> spawned w' = spawned w.
Proof. unfold mkdtemp. destruct (exists_path _ _); by intros [= <- <-]. Qed.

Lemma readFile_world p w r w' : readFile p w = (r, w') -> w' = w.
Proof.
  unfold readFile. destruct (bool_decide _); [by intros [= <- <-]|].
  destruct (files _ !! _); by intros [= <- <-].
Qed.

Lemma writeFile_spawned p text w r w' :
  writeFile p text w = (r, w') -> spawned w' = spawned w.
Proof. unfold writeFile. destruct (bool_decide _); by intros [= <- <-]. Qed.

Lemma copyFile_spawned src dst w r w' :
  copyFile src dst w = (r, w') -> spawned w' = spawned w.
Proof.
  unfold copyFile, mbind, M_bind.
  destruct (readFile src w) as [[text|e] w1] eqn:Hr;
    apply readFile_world in Hr as ->.
  - apply writeFile_spawned.
  - by intros [= <- <-].
Qed.

Lemma reaches_engine_spawned srcPath w tmpRoot w3 :
  reaches_engine srcPath w tmpRoot w3 -> spawned w3 = spawned w.
Proof.
  intros (w1 & w2 & Hmk & Hcp & Hwr).
  rewrite (writeFile_spawned _ _ _ _ _ Hwr), (copyFile_spawned _ _ _ _ _ Hcp).
  exact (mkdtemp_spawned _ _ _ _ Hmk).
Qed.

Lemma run_pdflatex_spawned tmpRoot base texName w :
  spawned (run_pdflatex tmpRoot base texName w).2 =
  spawned w ++ [pdflatex_call tmpRoot texName].
Proof.
  destruct (run_process (pdflatex_call tmpRoot texName) (fs w)) as [[err|] f'] eqn:Hrun.
  - by rewrite (run_pdflatex_rejected _ _ _ _ _ _ Hrun).
  - by rewrite (run_pdflatex_returned _ _ _ _ _ Hrun).
Qed.

(** Either the run stops before the engine, having spawned nothing, or it
    reaches the engine. *)
Lemma compile_cases srcPath w :
  (exists e w', compilePgfToPdf srcPath w = (Throw e, w') /\ spawned w' = spawned w) \/
  (exists tmpRoot w3, reaches_engine srcPath w tmpRoot w3).
Proof.
  destruct (mkdtemp (path_join tmpdir (js "vscode-pgf-")) w) as [[tmpRoot|e] w1] eqn:Hmk.
  2:{ left. exists e, w1. split; [|exact (mkdtemp_spawned _ _ _ _ Hmk)].
      unfold compilePgfToPdf, mbind at 1, M_bind at 1. by rewrite Hmk. }
  destruct (copyFile srcPath (path_join tmpRoot (basename srcPath)) w1)
    as [[[]|e] w2] eqn:Hcp.
  2:{ left. exists e, w2. split.
      - unfold compilePgfToPdf, mbind at 1, M_bind at 1. rewrite Hmk.
        unfold mbind at 1, M_bind at 1. by rewrite Hcp.
      - rewrite (copyFile_spawned _ _ _ _ _ Hcp).
        exact (mkdtemp_spawned _ _ _ _ Hmk). }
  destruct (writeFile
    (path_join tmpRoot (basename_ext srcPath (extname srcPath) ++ js ".tex"))
    (texContent srcPath
       (extractMatplotlibPreamble
          (source_text (path_join tmpRoot (basename srcPath)) w2)))
    w2) as [[[]|e] w3] eqn:Hwr.
  - right. exists tmpRoot, w3, w1, w2. by repeat split.
  - left. exists e, w3. split.
    + rewrite (compile_after_copy _ _ _ _ _ Hmk Hcp). cbv zeta.
      unfold mbind at 1, M_bind at 1. by rewrite Hwr.
    + rewrite (writeFile_spawned _ _ _ _ _ Hwr), (copyFile_spawned _ _ _ _ _ Hcp).
      exact (mkdtemp_spawned _ _ _ _ Hmk).
Qed.

Lemma compile_ok_reaches srcPath w r w' :
  compilePgfToPdf srcPath w = (Ok r, w') ->
  exists tmpRoot w3, reaches_engine srcPath w tmpRoot w3.
Proof.
  intros H. destruct (compile_cases srcPath w) as [(e & w1 & He & _) | Hreach];
    [congruence | exact Hreach].
Qed.

End Compile.

(** C2, as the code has it: when the [pdflatex] invocation is rejected
    (non-zero exit or invocation error), the diagnostic of the thrown
    compile failure is the first 200 characters of the log followed by
    [...], 203 characters, when the log file can be read and is longer
    than 200 characters; it is the whole log when the log can be read, is
    not empty and has at most 200 characters; and it is the raw error
    message of the invocation when the log file cannot be read or is
    empty. *)
Theorem build_failure_diagnostic `{E : Env} (srcPath : jsstring) (w : World)
    (tmpRoot : jsstring) (w3 : World) (err : JsError) (f' : FS) :
  reaches_engine srcPath w tmpRoot w3 ->
  run_process (pdflatex_call tmpRoot (source_base srcPath ++ js ".tex")) (fs w3)
    = (Some err, f') ->
  exists short w',
    w' = after_spawn (pdflatex_call tmpRoot (source_base srcPath ++ js ".tex")) f' w3 /\
    compilePgfToPdf srcPath w =
      (Throw (new_Error (js "Failed to build PGF: " ++ short)), w') /\
    (forall log,
       (readFile (path_join tmpRoot (source_base srcPath ++ js ".log")) w').1 = Ok log ->
       (200 < length log)%nat ->
       short = take 200 log ++ js "..." /\ length short = 203%nat) /\
    (forall log,
       (readFile (path_join tmpRoot (source_base srcPath ++ js ".log")) w').1 = Ok log ->
       log <> [] -> (length log <= 200)%nat ->
       short = log) /\
    ((readFile (path_join tmpRoot (source_base srcPath ++ js ".log")) w').1 = Ok [] ->
     short = message_or_string err) /\
    (forall e,
       (readFile (path_join tmpRoot (source_base srcPath ++ js ".log")) w').1 = Throw e ->
       short = message_or_string err).
Proof.
  intros Hreach Hrun.
  rewrite (compile_from_engine _ _ _ _ Hreach).
  rewrite (run_pdflatex_rejected _ _ _ _ _ _ Hrun).
  set (w' := after_spawn _ f' w3).
  destruct (readFile (path_join tmpRoot (source_base srcPath ++ js ".log")) w')
    as [[log|e] w''] eqn:Hread.
  - exists (short_log log err), w'. rewrite Hread. cbn [fst].
    split; [reflexivity|]. split; [reflexivity|].
    split; [|split; [|split]].
    + intros log' [= <-] Hlen. by apply short_log_long.
    + intros log' [= <-] Hne Hlen. by apply short_log_short.
    + by intros [= ->].
    + intros e. discriminate.
  - exists (short_log [] err), w'. rewrite Hread. cbn [fst].
    split; [reflexivity|]. split; [reflexivity|].
    split; [|split; [|split]]; try discriminate. done.
Qed.

(** Scenarios on the concrete environment are settled by evaluation. *)
Ltac by_evaluation := vm_compute; reflexivity.

Ltac demo_reaches w0 :=
  exists (mkdtemp (path_join tmpdir (js "vscode-pgf-")) w0).2,
         (copyFile Demo.src (path_join Demo.root (basename Demo.src))
            (mkdtemp (path_join tmpdir (js "vscode-pgf-")) w0).2).2;
  repeat split; by_evaluation.

Lemma build_failure_diagnostic_witness :
  (compilePgfToPdf (E := Demo.env (Demo.TexFail (Some (Demo.long_log 500))) true true true)
     Demo.src (Demo.world0 sample_text Demo.no_lock)).1
  = Throw (new_Error (js "Failed to build PGF: " ++ Demo.long_log 200 ++ js "...")).
Proof.
  set (E := Demo.env (Demo.TexFail (Some (Demo.long_log 500))) true true true).
  set (w0 := Demo.world0 sample_text Demo.no_lock).
  destruct (build_failure_diagnostic Demo.src w0 Demo.root (at_engine Demo.src w0)
              Demo.exit_error
              (run_process (pdflatex_call Demo.root (source_base Demo.src ++ js ".tex"))
                 (fs (at_engine Demo.src w0))).2)
    as (short & w' & Hw' & Hrun & Hlong & _).
  - demo_reaches w0.
  - by_evaluation.
  - rewrite Hrun. cbn [fst].
    destruct (Hlong (Demo.long_log 500)) as [-> _].
    + rewrite Hw'. by_evaluation.
    + vm_compute. lia.
    + by_evaluation.
Defined.

(** C2 as stated fails for a log file that exists and is empty: the
    diagnostic is the error message of the invocation, not the (empty)
    log. *)
Lemma empty_log_falls_back :
  files (fs (compilePgfToPdf (E := Demo.env (Demo.TexFail (Some [])) true true true)
               Demo.src (Demo.world0 sample_text Demo.no_lock)).2)
    !! js "/tmp/vscode-pgf-Ab3xYz/fig.log" = Some [] /\
  (compilePgfToPdf (E := Demo.env (Demo.TexFail (Some [])) true true true)
     Demo.src (Demo.world0 sample_text Demo.no_lock)).1
  = Throw (new_Error (js "Failed to build PGF: Command failed: exit code 1")) /\
  (compilePgfToPdf (E := Demo.env (Demo.TexFail (Some [])) true true true)
     Demo.src (Demo.world0 sample_text Demo.no_lock)).1
  <> Throw (new_Error (js "Failed to build PGF: " ++ [])).
Proof.
  split; [by_evaluation|]. split; [by_evaluation|].
  vm_compute. discriminate.
Qed.

(** C6: once the [pdflatex] invocation has returned without error,
    [compilePgfToPdf] looks for the PDF at the workspace path named after
    the source, and throws the [PDF not produced] failure when it is not
    there; it returns a PDF path only when that file exists, so the exit
    status alone never counts as success. *)
Theorem pdf_existence_decides `{E : Env} (srcPath : jsstring) (w : World) :
  (forall tmpRoot w3 f',
     reaches_engine srcPath w tmpRoot w3 ->
     run_process (pdflatex_call tmpRoot (source_base srcPath ++ js ".tex")) (fs w3)
       = (None, f') ->
     compilePgfToPdf srcPath w =
     (if exists_path (path_join tmpRoot (source_base srcPath ++ js ".pdf")) f'
      then Ok (tmpRoot, path_join tmpRoot (source_base srcPath ++ js ".pdf"))
      else Throw pdf_not_produced,
      after_spawn (pdflatex_call tmpRoot (source_base srcPath ++ js ".tex")) f' w3)) /\
  (forall tmpRoot pdfPath w',
     compilePgfToPdf srcPath w = (Ok (tmpRoot, pdfPath), w') ->
     pdfPath = path_join tmpRoot (source_base srcPath ++ js ".pdf") /\
     exists_path pdfPath (fs w') = true).
Proof.
  split.
  - intros tmpRoot w3 f' Hreach Hrun.
    rewrite (compile_from_engine _ _ _ _ Hreach).
    apply (run_pdflatex_returned _ _ _ _ _ Hrun).
  - intros tmpRoot pdfPath w' Hok.
    destruct (compile_ok_reaches _ _ _ _ Hok) as (t & w3 & Hreach).
    rewrite (compile_from_engine _ _ _ _ Hreach) in Hok.
    apply run_pdflatex_ok in Hok as (Hr & Hex & _).
    injection Hr as -> ->. by split.
Qed.

Lemma pdf_existence_decides_witness :
  (compilePgfToPdf (E := Demo.env Demo.TexSilent true true true)
     Demo.src (Demo.world0 sample_text Demo.no_lock)).1 = Throw pdf_not_produced /\
  exists_path (js "/tmp/vscode-pgf-Ab3xYz/fig.pdf")
    (fs (compilePgfToPdf (E := Demo.env Demo.TexOk true true true)
           Demo.src (Demo.world0 sample_text Demo.no_lock)).2) = true.
Proof.
  split.
  - set (E := Demo.env Demo.TexSilent true true true).
    set (w0 := Demo.world0 sample_text Demo.no_lock).
    rewrite (proj1 (pdf_existence_decides Demo.src w0) Demo.root (at_engine Demo.src w0)
               (fs (at_engine Demo.src w0))).
    + by_evaluation.
    + demo_reaches w0.
    + by_evaluation.
  - set (E := Demo.env Demo.TexOk true true true).
    set (w0 := Demo.world0 sample_text Demo.no_lock).
    apply (proj2 (pdf_existence_decides Demo.src w0) Demo.root
             (js "/tmp/vscode-pgf-Ab3xYz/fig.pdf") (compilePgfToPdf Demo.src w0).2).
    by_evaluation.
Defined.

(** ** The document synthesizer *)

(** C5: for every source path and every extracted preamble (a text or
    [null]), the synthesized document is the fixed template: class
    [standalone] with [border=1mm], packages [pgf] and [lmodern], the
    preamble verbatim on the lines after them when there is one, and a body
    whose [\input] names the original source path; this is the text
    [compilePgfToPdf] writes into the workspace, whatever directory the
    workspace is and wherever the copy of the source lies. *)
Theorem synthesized_document `{E : Env} (srcPath : jsstring) (pre : option jsstring) :
  texContent srcPath pre =
    js "\documentclass[border=1mm]{standalone}" ++ nl ++
    js "\usepackage{pgf}" ++ nl ++
    js "\usepackage{lmodern}" ++ nl ++
    match pre with
    | Some p => if bool_decide (p = []) then [] else p ++ nl
    | None => []
    end ++
    js "\begin{document}" ++ nl ++
    js "\input{" ++ srcPath ++ js "}" ++ nl ++
    js "\end{document}" ++ nl
  /\
  (forall w tmpRoot w1 w2,
     mkdtemp (path_join tmpdir (js "vscode-pgf-")) w = (Ok tmpRoot, w1) ->
     copyFile srcPath (path_join tmpRoot (basename srcPath)) w1 = (Ok tt, w2) ->
     compilePgfToPdf srcPath w =
     (_ ← writeFile (path_join tmpRoot (source_base srcPath ++ js ".tex"))
            (texContent srcPath
               (extractMatplotlibPreamble
                  (source_text (path_join tmpRoot (basename srcPath)) w2)));
      run_pdflatex tmpRoot (source_base srcPath) (source_base srcPath ++ js ".tex")) w2)
  /\
  (forall w tmpRoot w3,
     reaches_engine srcPath w tmpRoot w3 ->
     exists srcText,
       files (fs w3) !! path_join tmpRoot (source_base srcPath ++ js ".tex")
       = Some (texContent srcPath (extractMatplotlibPreamble srcText))).
Proof.
  split; [|split].
  - unfold texContent. destruct pre as [[|c p]|]; reflexivity.
  - intros w tmpRoot w1 w2. apply compile_after_copy.
  - intros w tmpRoot w3 (w1 & w2 & _ & _ & Hwr).
    exists (source_text (path_join tmpRoot (basename srcPath)) w2).
    unfold writeFile in Hwr. destruct (bool_decide _); [discriminate|].
    injection Hwr as <-. cbn [fs set_fs files]. apply lookup_insert_eq.
Qed.

Lemma synthesized_document_witness :
  exists srcText,
    files (fs (at_engine (E := Demo.env Demo.TexOk true true true)
                 Demo.src (Demo.world0 sample_text Demo.no_lock)))
      !! js "/tmp/vscode-pgf-Ab3xYz/fig.tex"
    = Some (js "\documentclass[border=1mm]{standalone}" ++ nl ++
            js "\usepackage{pgf}" ++ nl ++
            js "\usepackage{lmodern}" ++ nl ++
            match extractMatplotlibPreamble srcText with
            | Some p => if bool_decide (p = []) then [] else p ++ nl
            | None => []
            end ++
            js "\begin{document}" ++ nl ++
            js "\input{" ++ Demo.src ++ js "}" ++ nl ++
            js "\end{document}" ++ nl).
Proof.
  set (E := Demo.env Demo.TexOk true true true).
  set (w0 := Demo.world0 sample_text Demo.no_lock).
  destruct (proj2 (proj2 (synthesized_document Demo.src None)) w0 Demo.root
              (at_engine Demo.src w0)) as [srcText Hfile].
  - demo_reaches w0.
  - exists srcText.
    rewrite <- (proj1 (synthesized_document Demo.src (extractMatplotlibPreamble srcText))).
    exact Hfile.
Defined.

(** C10: when the read of the copied source fails, [compilePgfToPdf] goes
    on: the source text is taken to be empty, no preamble is extracted, and
    the document written and compiled is the template without a preamble. *)
Theorem unreadable_copy_plain_document `{E : Env} (srcPath : jsstring) (w : World)
    (tmpRoot : jsstring) (w1 w2 : World) (e : JsError) :
  mkdtemp (path_join tmpdir (js "vscode-pgf-")) w = (Ok tmpRoot, w1) ->
  copyFile srcPath (path_join tmpRoot (basename srcPath)) w1 = (Ok tt, w2) ->
  (readFile (path_join tmpRoot (basename srcPath)) w2).1 = Throw e ->
  source_text (path_join tmpRoot (basename srcPath)) w2 = [] /\
  extractMatplotlibPreamble [] = None /\
  compilePgfToPdf srcPath w =
    (_ ← writeFile (path_join tmpRoot (source_base srcPath ++ js ".tex"))
           (texContent srcPath None);
     run_pdflatex tmpRoot (source_base srcPath) (source_base srcPath ++ js ".tex")) w2 /\
  texContent srcPath None =
    js "\documentclass[border=1mm]{standalone}" ++ nl ++
    js "\usepackage{pgf}" ++ nl ++
    js "\usepackage{lmodern}" ++ nl ++
    js "\begin{document}" ++ nl ++
    js "\input{" ++ srcPath ++ js "}" ++ nl ++
    js "\end{document}" ++ nl /\
  (path_join tmpRoot (source_base srcPath ++ js ".tex") ∉ dirs (fs w2) ->
   spawned (compilePgfToPdf srcPath w).2 =
   spawned w ++ [pdflatex_call tmpRoot (source_base srcPath ++ js ".tex")]).
Proof.
  intros Hmk Hcp Hrd.
  assert (Htext : source_text (path_join tmpRoot (basename srcPath)) w2 = []).
  { unfold source_text.
    destruct (readFile (path_join tmpRoot (basename srcPath)) w2) as [[text|e'] w'];
      [discriminate Hrd | reflexivity]. }
  assert (Hrun : compilePgfToPdf srcPath w =
    (_ ← writeFile (path_join tmpRoot (source_base srcPath ++ js ".tex"))
           (texContent srcPath None);
     run_pdflatex tmpRoot (source_base srcPath) (source_base srcPath ++ js ".tex")) w2).
  { rewrite (compile_after_copy _ _ _ _ _ Hmk Hcp). cbv zeta.
    fold (source_base srcPath). by rewrite Htext. }
  split; [exact Htext|]. split; [reflexivity|]. split; [exact Hrun|].
  split; [reflexivity|].
  intros Hdir. rewrite Hrun. unfold mbind, M_bind, writeFile.
  rewrite bool_decide_eq_false_2 by exact Hdir.
  rewrite run_pdflatex_spawned. cbn [spawned set_fs].
  by rewrite (copyFile_spawned _ _ _ _ _ Hcp), (mkdtemp_spawned _ _ _ _ Hmk).
Qed.

Lemma unreadable_copy_plain_document_witness :
  spawned (compilePgfToPdf (E := Demo.env Demo.TexOk true true true) Demo.src
             (Demo.world0 sample_text {[ js "/tmp/vscode-pgf-Ab3xYz/fig.pgf" ]})).2
  = [pdflatex_call Demo.root (js "fig.tex")].
Proof.
  set (E := Demo.env Demo.TexOk true true true).
  set (w0 := Demo.world0 sample_text {[ js "/tmp/vscode-pgf-Ab3xYz/fig.pgf" ]}).
  destruct (unreadable_copy_plain_document Demo.src w0 Demo.root
              (mkdtemp (path_join tmpdir (js "vscode-pgf-")) w0).2
              (copyFile Demo.src (path_join Demo.root (basename Demo.src))
                 (mkdtemp (path_join tmpdir (js "vscode-pgf-")) w0).2).2
              (system_error "EACCES"))
    as (_ & _ & _ & _ & Hsp).
  1-3: by_evaluation.
  rewrite Hsp; [by_evaluation|].
  vm_compute. intros H. discriminate H.
Defined.

(** ** The raster stage *)

Section Raster.
Context `{E : Env}.

(** One attempt: the program runs once, its failure is swallowed, and the
    attempt yields the path only when the program returned and the file
    is there. *)
Lemma attempt_run c a pngPath w :
  attempt c a pngPath w =
  (Ok (if attempt_fails {| cmd := c; args := a; cwd := None |} pngPath (fs w)
       then None else Some pngPath),
   after_spawn {| cmd := c; args := a; cwd := None |}
     (run_process {| cmd := c; args := a; cwd := None |} (fs w)).2 w).
Proof.
  unfold attempt, attempt_fails, try_catch, mbind, M_bind, execFileP, existsSync,
    mret, M_ret, after_spawn.
  destruct (run_process _ (fs w)) as [[e|] f']; [reflexivity|].
  cbn [fs snd]. by destruct (exists_path pngPath f').
Qed.

Lemma attempt_succeeds_exists sp pngPath f :
  attempt_fails sp pngPath f = false ->
  exists_path pngPath (run_process sp f).2 = true.
Proof.
  unfold attempt_fails. destruct (run_process sp f) as [[e|] f']; [discriminate|].
  cbn [snd]. by destruct (exists_path pngPath f').
Qed.

Lemma render_run pdfPath tmpRoot w :
  let base := basename_ext pdfPath (extname pdfPath) in
  let outPrefix := path_join tmpRoot base in
  let pngPath := path_join tmpRoot (base ++ js ".png") in
  let sp1 := pdftocairo_call pdfPath outPrefix in
  let sp2 := pdftoppm_call pdfPath outPrefix in
  let sp3 := convert_call pdfPath pngPath in
  let w1 := after_spawn sp1 (run_process sp1 (fs w)).2 w in
  let w2 := after_spawn sp2 (run_process sp2 (fs w1)).2 w1 in
  let w3 := after_spawn sp3 (run_process sp3 (fs w2)).2 w2 in
  renderPdfToPng pdfPath tmpRoot w =
  if negb (attempt_fails sp1 pngPath (fs w)) then (Ok pngPath, w1)
  else if negb (attempt_fails sp2 pngPath (fs w1)) then (Ok pngPath, w2)
  else if negb (attempt_fails sp3 pngPath (fs w2)) then (Ok pngPath, w3)
  else (Throw no_rasterizer, w3).
Proof.
  cbv zeta. unfold renderPdfToPng, pdftocairo_call, pdftoppm_call, convert_call.
  set (base := basename_ext pdfPath (extname pdfPath)).
  set (outPrefix := path_join tmpRoot base).
  set (pngPath := path_join tmpRoot (base ++ js ".png")).
  set (sp1 := {| cmd := js "pdftocairo"; args := _; cwd := None |}).
  set (sp2 := {| cmd := js "pdftoppm"; args := _; cwd := None |}).
  set (sp3 := {| cmd := js "convert"; args := _; cwd := None |}).
  unfold mbind at 1, M_bind at 1. rewrite attempt_run. fold sp1.
  destruct (attempt_fails sp1 pngPath (fs w)); [|reflexivity]. cbn [negb].
  unfold mbind at 1, M_bind at 1. rewrite attempt_run. fold sp2.
  destruct (attempt_fails sp2 pngPath _); [|reflexivity]. cbn [negb].
  unfold mbind at 1, M_bind at 1. rewrite attempt_run. fold sp3.
  by destruct (attempt_fails sp3 pngPath _).
Qed.

End Raster.

(** C3: [renderPdfToPng] runs [pdftocairo], then [pdftoppm], then
    [convert] with [-density 300], in that order and each at most once, and
    stops at the first attempt that succeeds; an attempt that is rejected or
    leaves no PNG file is passed over and the next tool is tried; a path is
    returned only when the PNG file exists; and the function throws, with
    the no-rasterizer error, exactly when all three attempts fail. *)
Theorem raster_fallback_order `{E : Env} (pdfPath tmpRoot : jsstring) (w : World) :
  let base := basename_ext pdfPath (extname pdfPath) in
  let outPrefix := path_join tmpRoot base in
  let pngPath := path_join tmpRoot (base ++ js ".png") in
  let sp1 := pdftocairo_call pdfPath outPrefix in
  let sp2 := pdftoppm_call pdfPath outPrefix in
  let sp3 := convert_call pdfPath pngPath in
  let w1 := after_spawn sp1 (run_process sp1 (fs w)).2 w in
  let w2 := after_spawn sp2 (run_process sp2 (fs w1)).2 w1 in
  let w3 := after_spawn sp3 (run_process sp3 (fs w2)).2 w2 in
  let fail1 := attempt_fails sp1 pngPath (fs w) in
  let fail2 := attempt_fails sp2 pngPath (fs w1) in
  let fail3 := attempt_fails sp3 pngPath (fs w2) in
  renderPdfToPng pdfPath tmpRoot w =
    (if negb fail1 then (Ok pngPath, w1)
     else if negb fail2 then (Ok pngPath, w2)
     else if negb fail3 then (Ok pngPath, w3)
     else (Throw no_rasterizer, w3)) /\
  spawned (renderPdfToPng pdfPath tmpRoot w).2 =
    spawned w ++
    (if negb fail1 then [sp1]
     else if negb fail2 then [sp1; sp2]
     else [sp1; sp2; sp3]) /\
  (forall p w', renderPdfToPng pdfPath tmpRoot w = (Ok p, w') ->
                p = pngPath /\ exists_path pngPath (fs w') = true) /\
  ((exists e w', renderPdfToPng pdfPath tmpRoot w = (Throw e, w')) <->
   fail1 = true /\ fail2 = true /\ fail3 = true) /\
  (forall e w', renderPdfToPng pdfPath tmpRoot w = (Throw e, w') -> e = no_rasterizer).
Proof.
  intros base outPrefix pngPath sp1 sp2 sp3 w1 w2 w3 fail1 fail2 fail3.
  pose proof (render_run pdfPath tmpRoot w) as Hrun. cbv zeta in Hrun.
  fold base outPrefix pngPath sp1 sp2 sp3 w1 w2 w3 fail1 fail2 fail3 in Hrun.
  assert (H1 : fail1 = false -> exists_path pngPath (fs w1) = true)
    by apply attempt_succeeds_exists.
  assert (H2 : fail2 = false -> exists_path pngPath (fs w2) = true)
    by apply attempt_succeeds_exists.
  assert (H3 : fail3 = false -> exists_path pngPath (fs w3) = true)
    by apply attempt_succeeds_exists.
  rewrite Hrun. clearbody fail1 fail2 fail3.
  destruct fail1, fail2, fail3; cbn [negb snd];
    (split; [reflexivity|]);
    (split; [subst w1 w2 w3; cbn [spawned after_spawn];
             rewrite <- ?app_assoc; reflexivity|]);
    (split; [intros p w' [= <- <-]; split; auto|]);
    (split; [|intros e w' [= <- _]; reflexivity]);
    (split; [intros (e & w' & [= _ _]) | intros (? & ? & ?)]);
    try discriminate; eauto.
Qed.

Lemma raster_fallback_order_witness :
  (renderPdfToPng (E := Demo.env Demo.TexOk false false true)
     (js "/tmp/vscode-pgf-Ab3xYz/fig.pdf") Demo.root
     (compilePgfToPdf (E := Demo.env Demo.TexOk false false true) Demo.src
        (Demo.world0 sample_text Demo.no_lock)).2).1
  = Ok (js "/tmp/vscode-pgf-Ab3xYz/fig.png") /\
  cmd <$> spawned
    (renderPdfToPng (E := Demo.env Demo.TexOk false false true)
       (js "/tmp/vscode-pgf-Ab3xYz/fig.pdf") Demo.root
       (compilePgfToPdf (E := Demo.env Demo.TexOk false false true) Demo.src
          (Demo.world0 sample_text Demo.no_lock)).2).2
  = [js "pdflatex"; js "pdftocairo"; js "pdftoppm"; js "convert"].
Proof.
  set (E := Demo.env Demo.TexOk false false true).
  set (wc := (compilePgfToPdf Demo.src (Demo.world0 sample_text Demo.no_lock)).2).
  pose proof (raster_fallback_order (js "/tmp/vscode-pgf-Ab3xYz/fig.pdf") Demo.root wc)
    as H.
  cbv zeta in H. destruct H as (Hrun & Hsp & _).
  split.
  - rewrite Hrun. by_evaluation.
  - rewrite Hsp. by_evaluation.
Defined.

(** ** Relations the pipeline preserves

    The computations are built from the primitives with sequencing and
    handlers; a reflexive and transitive relation between the worlds that
    every primitive respects is respected by all of them. *)

Section Stable.
Context (R : World -> World -> Prop) `{!Reflexive R, !Transitive R}.

Lemma stable_ret {A} (a : A) : stable R (mret a).
Proof. intros w. reflexivity. Qed.

Lemma stable_throw {A} e : stable R (@throw A e).
Proof. intros w. reflexivity. Qed.

Lemma stable_bind {A B} (m : M A) (k : A -> M B) :
  stable R m -> (forall a, stable R (k a)) -> stable R (m ≫= k).
Proof.
  intros Hm Hk w. unfold mbind, M_bind. specialize (Hm w).
  destruct (m w) as [[a|e] w1]; cbn [snd] in *; [|exact Hm].
  etrans; [exact Hm | apply Hk].
Qed.

Lemma stable_try {A} (m : M A) (h : JsError -> M A) :
  stable R m -> (forall e, stable R (h e)) -> stable R (try_catch m h).
Proof.
  intros Hm Hh w. unfold try_catch. specialize (Hm w).
  destruct (m w) as [[a|e] w1]; cbn [snd] in *; [exact Hm|].
  etrans; [exact Hm | apply Hh].
Qed.

End Stable.

#[global] Instance no_loss_refl : Reflexive no_loss.
Proof. by intros w p. Qed.

#[global] Instance no_loss_trans : Transitive no_loss.
Proof. intros w1 w2 w3 H1 H2 p Hp. by apply H2, H1. Qed.

#[global] Instance same_opened_refl : Reflexive same_opened.
Proof. by intros w. Qed.

#[global] Instance same_opened_trans : Transitive same_opened.
Proof. intros w1 w2 w3 H1 H2. unfold same_opened in *. congruence. Qed.

Create HintDb stable_prims.

Section PrimitivesKeep.
Context `{E : Env}.

Lemma exists_path_insert p q text f :
  exists_path p f = true ->
  exists_path p {| files := <[q := text]> (files f); dirs := dirs f;
                   unreadable := unreadable f |} = true.
Proof.
  unfold exists_path. cbn [files dirs].
  intros [H|H]%orb_prop; apply orb_true_iff; [left|by right].
  apply bool_decide_eq_true in H. apply bool_decide_eq_true.
  rewrite dom_insert. set_solver.
Qed.

Lemma exists_path_mkdir p q f :
  exists_path p f = true ->
  exists_path p {| files := files f; dirs := {[q]} ∪ dirs f;
                   unreadable := unreadable f |} = true.
Proof.
  unfold exists_path. cbn [files dirs].
  intros [H|H]%orb_prop; apply orb_true_iff; [by left|right].
  apply bool_decide_eq_true in H. apply bool_decide_eq_true. set_solver.
Qed.

(** The [fs] calls of the source remove nothing. *)
Lemma mkdtemp_keeps prefix : stable no_loss (mkdtemp prefix).
Proof.
  intros w p Hp. unfold mkdtemp.
  destruct (exists_path (prefix ++ mkdtemp_suffix (fs w)) (fs w)); [exact Hp|].
  by apply exists_path_mkdir.
Qed.

Lemma readFile_keeps p : stable no_loss (readFile p).
Proof.
  intros w. unfold readFile. destruct (bool_decide _); [reflexivity|].
  destruct (files _ !! _); reflexivity.
Qed.

Lemma writeFile_keeps p text : stable no_loss (writeFile p text).
Proof.
  intros w q Hq. unfold writeFile. destruct (bool_decide _); [exact Hq|].
  by apply exists_path_insert.
Qed.

Lemma existsSync_keeps p : stable no_loss (existsSync p).
Proof. intros w. reflexivity. Qed.

Lemma execFileP_keeps c a d : tools_keep -> stable no_loss (execFileP c a d).
Proof.
  intros Htools w p Hp. unfold execFileP.
  specialize (Htools {| cmd := c; args := a; cwd := d |} (fs w) p Hp).
  destruct (run_process _ (fs w)) as [[e|] f']; exact Htools.
Qed.

Lemma set_options_keeps roots : stable no_loss (set_options roots).
Proof. intros w p Hp. exact Hp. Qed.

Lemma set_html_keeps text : stable no_loss (set_html text).
Proof. intros w p Hp. exact Hp. Qed.

Lemma dispose_keeps : stable no_loss dispose.
Proof. intros w p Hp. unfold dispose. by destruct (host_dispose _). Qed.

Lemma open_image_keeps p : stable no_loss (open_image p).
Proof. intros w q Hq. unfold open_image. by destruct (host_open _ _). Qed.

(** Only [open_image] hands a file to the editor. *)
Lemma mkdtemp_opened prefix : stable same_opened (mkdtemp prefix).
Proof.
  intros w. unfold same_opened, mkdtemp. by destruct (exists_path _ _).
Qed.

Lemma readFile_opened p : stable same_opened (readFile p).
Proof.
  intros w. unfold same_opened, readFile. destruct (bool_decide _); [reflexivity|].
  destruct (files _ !! _); reflexivity.
Qed.

Lemma writeFile_opened p text : stable same_opened (writeFile p text).
Proof. intros w. unfold same_opened, writeFile. by destruct (bool_decide _). Qed.

Lemma existsSync_opened p : stable same_opened (existsSync p).
Proof. intros w. reflexivity. Qed.

Lemma execFileP_opened c a d : stable same_opened (execFileP c a d).
Proof.
  intros w. unfold same_opened, execFileP.
  by destruct (run_process _ (fs w)) as [[e|] f'].
Qed.

Lemma set_options_opened roots : stable same_opened (set_options roots).
Proof. intros w. unfold same_opened. reflexivity. Qed.

End PrimitivesKeep.

#[global] Hint Resolve mkdtemp_keeps readFile_keeps writeFile_keeps existsSync_keeps
  execFileP_keeps set_options_keeps set_html_keeps dispose_keeps open_image_keeps
  mkdtemp_opened readFile_opened writeFile_opened existsSync_opened
  execFileP_opened set_options_opened : stable_prims.

(** Walks a computation down to its primitives. *)
Ltac stable_walk :=
  repeat first
    [ apply stable_bind; [typeclasses eauto | | intros ?]
    | apply stable_try; [typeclasses eauto | | intros ?]
    | apply stable_ret; typeclasses eauto
    | apply stable_throw; typeclasses eauto
    | solve [auto with stable_prims]
    | match goal with
      | |- stable _ (match ?x with _ => _ end) => destruct x
      end ].

Section PipelineKeeps.
Context `{E : Env}.

Lemma copyFile_keeps src dst : stable no_loss (copyFile src dst).
Proof. unfold copyFile. stable_walk. Qed.

Lemma run_pdflatex_keeps tmpRoot base texName :
  tools_keep -> stable no_loss (run_pdflatex tmpRoot base texName).
Proof. intros Htools. unfold run_pdflatex. cbv zeta. stable_walk. Qed.

Lemma compile_keeps srcPath : tools_keep -> stable no_loss (compilePgfToPdf srcPath).
Proof.
  intros Htools. unfold compilePgfToPdf, copyFile. cbv zeta. stable_walk.
Qed.

Lemma render_keeps pdfPath tmpRoot :
  tools_keep -> stable no_loss (renderPdfToPng pdfPath tmpRoot).
Proof. intros Htools. unfold renderPdfToPng, attempt. cbv zeta. stable_walk. Qed.



End PipelineKeeps.

(** ** The orchestrator *)

#[global] Instance same_dirs_refl : Reflexive same_dirs.
Proof. by intros w. Qed.

#[global] Instance same_dirs_trans : Transitive same_dirs.
Proof. intros w1 w2 w3 H1 H2. unfold same_dirs in *. congruence. Qed.

#[global] Instance same_html_refl : Reflexive same_html.
Proof. by intros w. Qed.

#[global] Instance same_html_trans : Transitive same_html.
Proof. intros w1 w2 w3 H1 H2. unfold same_html in *. congruence. Qed.

Section Orchestrator.
Context `{E : Env}.








(** The two handlers of [resolveCustomEditor], case by case. *)
Lemma resolve_run srcPath w :
  resolveCustomEditor srcPath w =
  match compilePgfToPdf srcPath w with
  | (Throw err, wc) => set_html (error_page err) wc
  | (Ok (tmpRoot, pdfPath), wc) =>
      match renderPdfToPng pdfPath tmpRoot (set_options [tmpRoot] wc).2 with
      | (Throw e, wr) => set_html (fallback_page (asWebviewUri pdfPath) e) wr
      | (Ok pngPath, wr) =>
          match host_open pngPath (fs wr) with
          | Some e => set_html (fallback_page (asWebviewUri pdfPath) e) wr
          | None =>
              (Ok tt,
               (try_catch dispose (fun _ => mret tt)
                  {| fs := fs wr; spawned := spawned wr; panel := panel wr;
                     opened := opened wr ++ [pngPath] |}).2)
          end
      end
  end.
Proof.
  unfold resolveCustomEditor, try_catch at 1, mbind at 1, M_bind at 1.
  destruct (compilePgfToPdf srcPath w) as [[[tmpRoot pdfPath]|err] wc]; [|reflexivity].
  unfold mbind at 1, M_bind at 1. cbn [set_options snd].
  unfold try_catch at 1, mbind at 1, M_bind at 1.
  destruct (renderPdfToPng pdfPath tmpRoot _) as [[pngPath|e] wr]; [|reflexivity].
  unfold mbind at 1, M_bind at 1, open_image.
  destruct (host_open pngPath (fs wr)) as [e|]; [reflexivity|].
  unfold mbind, M_bind, try_catch, dispose, mret, M_ret.
  by destruct (host_dispose _).
Qed.

(** What the guarded [dispose] leaves: everything but the panel's flag. *)
Lemma guarded_dispose w :
  let w' := (try_catch dispose (fun _ => mret tt) w).2 in
  fs w' = fs w /\ spawned w' = spawned w /\ opened w' = opened w /\
  html (panel w') = html (panel w) /\
  localResourceRoots (panel w') = localResourceRoots (panel w) /\
  disposed (panel w') =
    match host_dispose (panel w) with
    | None => true
    | Some _ => disposed (panel w)
    end.
Proof.
  unfold try_catch, dispose, mret, M_ret.
  by destruct (host_dispose (panel w)).
Qed.


(** The pages of the two handlers differ, whatever they report. *)
Lemma pages_differ pdfUri e err : fallback_page pdfUri e <> error_page err.
Proof. unfold fallback_page, error_page. discriminate. Qed.

(** The page builders of the source, spelled out. *)
Lemma fallback_page_text pdfUri e :
  fallback_page pdfUri e =
  js "<html><body><p>Could not rasterize PDF: " ++ message_or_string e ++
  js "</p><p><a href=" ++ [34%N] ++ pdfUri ++ [34%N] ++
  js ">Open PDF externally</a></p></body></html>".
Proof. reflexivity. Qed.

Lemma error_page_text err :
  error_page err =
  js "<html><body><pre>Error: " ++ message_or_string err ++
  js "</pre></body></html>".
Proof. reflexivity. Qed.


End Orchestrator.




(** ** The workspace *)

Section Workspace.
Context `{E : Env}.

Lemma stable_at {A} (R : World -> World -> Prop) (m : M A) w :
  stable R m -> R w (m w).2.
Proof. intros H. apply H. Qed.

Lemma resolve_keeps srcPath :
  tools_keep -> stable no_loss (resolveCustomEditor srcPath).
Proof.
  intros Htools.
  unfold resolveCustomEditor, compilePgfToPdf, run_pdflatex, copyFile,
    renderPdfToPng, attempt.
  cbv zeta. stable_walk.
Qed.

Lemma resolve_keeps_compiled srcPath w :
  tools_keep -> no_loss (compilePgfToPdf srcPath w).2 (resolveCustomEditor srcPath w).2.
Proof.
  intros Htools. rewrite resolve_run.
  destruct (compilePgfToPdf srcPath w) as [[[tmpRoot pdfPath]|err] wc]; cbn [snd].
  - pose proof (render_keeps pdfPath tmpRoot Htools (set_options [tmpRoot] wc).2) as Hr.
    destruct (renderPdfToPng pdfPath tmpRoot _) as [[pngPath|e] wr]; [|exact Hr].
    destruct (host_open pngPath (fs wr)) as [e|]; [exact Hr|].
    cbn [snd]. intros p Hp. unfold no_loss.
    rewrite (proj1 (guarded_dispose _)). by apply Hr.
  - intros p Hp. exact Hp.
Qed.

Lemma compile_keeps_allocated srcPath w tmpRoot w1 :
  tools_keep ->
  mkdtemp (path_join tmpdir (js "vscode-pgf-")) w = (Ok tmpRoot, w1) ->
  no_loss w1 (compilePgfToPdf srcPath w).2.
Proof.
  intros Htools Hmk. unfold compilePgfToPdf.
  unfold mbind at 1, M_bind at 1. rewrite Hmk.
  apply stable_at. unfold run_pdflatex, copyFile. cbv zeta. stable_walk.
Qed.

Lemma compile_keeps_written srcPath w tmpRoot w3 :
  tools_keep ->
  reaches_engine srcPath w tmpRoot w3 ->
  no_loss w3 (compilePgfToPdf srcPath w).2.
Proof.
  intros Htools Hreach. rewrite (compile_from_engine _ _ _ _ Hreach).
  by apply run_pdflatex_keeps.
Qed.

(** Past [mkdtemp], no directory is created. *)
Lemma readFile_dirs p : stable same_dirs (readFile p).
Proof.
  intros w. unfold same_dirs, readFile. destruct (bool_decide _); [reflexivity|].
  destruct (files _ !! _); reflexivity.
Qed.

Lemma writeFile_dirs p text : stable same_dirs (writeFile p text).
Proof. intros w. unfold same_dirs, writeFile. by destruct (bool_decide _). Qed.

Lemma existsSync_dirs p : stable same_dirs (existsSync p).
Proof. intros w. reflexivity. Qed.

Lemma execFileP_dirs c a d : tools_leave_dirs -> stable same_dirs (execFileP c a d).
Proof.
  intros Htools w. unfold same_dirs, execFileP.
  specialize (Htools {| cmd := c; args := a; cwd := d |} (fs w)).
  by destruct (run_process _ (fs w)) as [[e|] f'].
Qed.

Lemma render_dirs pdfPath tmpRoot :
  tools_leave_dirs -> stable same_dirs (renderPdfToPng pdfPath tmpRoot).
Proof.
  intros Htools. pose proof existsSync_dirs. pose proof (fun c a d => execFileP_dirs c a d Htools).
  unfold renderPdfToPng, attempt. cbv zeta. stable_walk.
Qed.

Lemma compile_dirs_allocated srcPath w tmpRoot w1 :
  tools_leave_dirs ->
  mkdtemp (path_join tmpdir (js "vscode-pgf-")) w = (Ok tmpRoot, w1) ->
  same_dirs w1 (compilePgfToPdf srcPath w).2.
Proof.
  intros Htools Hmk.
  pose proof existsSync_dirs. pose proof (fun c a d => execFileP_dirs c a d Htools).
  pose proof readFile_dirs. pose proof writeFile_dirs.
  unfold compilePgfToPdf.
  unfold mbind at 1, M_bind at 1. rewrite Hmk.
  apply stable_at. unfold run_pdflatex, copyFile. cbv zeta. stable_walk.
Qed.

Lemma resolve_dirs_compiled srcPath w :
  tools_leave_dirs ->
  same_dirs (compilePgfToPdf srcPath w).2 (resolveCustomEditor srcPath w).2.
Proof.
  intros Htools. rewrite resolve_run.
  destruct (compilePgfToPdf srcPath w) as [[[tmpRoot pdfPath]|err] wc]; cbn [snd].
  - pose proof (render_dirs pdfPath tmpRoot Htools (set_options [tmpRoot] wc).2) as Hr.
    destruct (renderPdfToPng pdfPath tmpRoot _) as [[pngPath|e] wr]; [|exact Hr].
    destruct (host_open pngPath (fs wr)) as [e|]; [exact Hr|].
    cbn [snd]. unfold same_dirs. rewrite (proj1 (guarded_dispose _)). exact Hr.
  - reflexivity.
Qed.

Lemma mkdtemp_fresh prefix w tmpRoot w1 :
  mkdtemp prefix w = (Ok tmpRoot, w1) ->
  tmpRoot = prefix ++ mkdtemp_suffix (fs w) /\
  exists_path tmpRoot (fs w) = false /\
  exists_path tmpRoot (fs w1) = true.
Proof.
  unfold mkdtemp.
  destruct (exists_path (prefix ++ mkdtemp_suffix (fs w)) (fs w)) eqn:Hex;
    [discriminate|].
  intros [= <- <-]. split; [reflexivity|]. split; [exact Hex|].
  unfold exists_path. cbn [fs set_fs dirs]. apply orb_true_iff. right.
  apply bool_decide_eq_true. set_solver.
Qed.

End Workspace.

(** C9: provided the external programs remove nothing, no path that exists
    when a request starts, and none that exists at a later point of it, is
    missing when the request ends: not the workspace directory, which
    [mkdtemp] creates under the temporary-file root with a name that was
    free, not the source copy and the document written into it, and not
    what the compilation left there.  The workspace is the one directory a
    request creates, and the file-system calls of the pipeline itself only
    create and write. *)
Theorem workspace_never_deleted `{E : Env} (srcPath : jsstring) (w : World) :
  tools_keep ->
  no_loss w (resolveCustomEditor srcPath w).2 /\
  (forall tmpRoot w1,
     mkdtemp (path_join tmpdir (js "vscode-pgf-")) w = (Ok tmpRoot, w1) ->
     tmpRoot = path_join tmpdir (js "vscode-pgf-") ++ mkdtemp_suffix (fs w) /\
     exists_path tmpRoot (fs w) = false /\
     exists_path tmpRoot (fs w1) = true /\
     no_loss w1 (resolveCustomEditor srcPath w).2 /\
     exists_path tmpRoot (fs (resolveCustomEditor srcPath w).2) = true) /\
  (forall tmpRoot w3,
     reaches_engine srcPath w tmpRoot w3 ->
     no_loss w3 (resolveCustomEditor srcPath w).2) /\
  no_loss (compilePgfToPdf srcPath w).2 (resolveCustomEditor srcPath w).2 /\
  (tools_leave_dirs ->
   forall tmpRoot w1,
     mkdtemp (path_join tmpdir (js "vscode-pgf-")) w = (Ok tmpRoot, w1) ->
     dirs (fs (resolveCustomEditor srcPath w).2) = {[tmpRoot]} ∪ dirs (fs w)) /\
  (forall prefix src dst p text,
     stable no_loss (mkdtemp prefix) /\
     stable no_loss (copyFile src dst) /\
     stable no_loss (readFile p) /\
     stable no_loss (writeFile p text) /\
     stable no_loss (existsSync p)).
Proof.
  intros Htools.
  pose proof (resolve_keeps_compiled srcPath w Htools) as Hend.
  split; [by apply resolve_keeps|].
  split; [|split; [|split; [exact Hend|split]]].
  - intros tmpRoot w1 Hmk.
    destruct (mkdtemp_fresh _ _ _ _ Hmk) as (Hname & Hfree & Hmade).
    assert (Hle : no_loss w1 (resolveCustomEditor srcPath w).2).
    { etrans; [exact (compile_keeps_allocated srcPath w tmpRoot w1 Htools Hmk)|exact Hend]. }
    repeat split; try assumption. by apply Hle.
  - intros tmpRoot w3 Hreach.
    etrans; [exact (compile_keeps_written srcPath w tmpRoot w3 Htools Hreach)|exact Hend].
  - intros Hdirs tmpRoot w1 Hmk.
    rewrite (resolve_dirs_compiled srcPath w Hdirs).
    rewrite (compile_dirs_allocated srcPath w tmpRoot w1 Hdirs Hmk).
    unfold mkdtemp in Hmk.
    destruct (exists_path _ (fs w)); [discriminate|]. by injection Hmk as <- <-.
  - intros prefix src dst p text.
    repeat split; auto using copyFile_keeps with stable_prims.
Qed.

Lemma demo_tools_keep t c p v : tools_keep (E := Demo.env t c p v).
Proof.
  intros sp f q Hq. cbn [run_process Demo.env]. unfold Demo.process.
  destruct (args sp) as [|a1 [|a2 [|a3 [|a4 [|a5 rest]]]]]; try exact Hq.
  repeat case_bool_decide; destruct t as [| |[log|]], c, p, v; cbn [snd];
    unfold Demo.put; repeat apply exists_path_insert; exact Hq.
Qed.

Lemma demo_tools_leave_dirs t c p v : tools_leave_dirs (E := Demo.env t c p v).
Proof.
  intros sp f. cbn [run_process Demo.env]. unfold Demo.process.
  destruct (args sp) as [|a1 [|a2 [|a3 [|a4 [|a5 rest]]]]]; try reflexivity.
  repeat case_bool_decide; destruct t as [| |[log|]], c, p, v; reflexivity.
Qed.

Lemma workspace_never_deleted_witness :
  exists_path Demo.root
    (fs (resolveCustomEditor (E := Demo.env Demo.TexOk true true true)
           Demo.src (Demo.world0 sample_text Demo.no_lock)).2) = true /\
  exists_path Demo.src
    (fs (resolveCustomEditor (E := Demo.env Demo.TexOk true true true)
           Demo.src (Demo.world0 sample_text Demo.no_lock)).2) = true /\
  dirs (fs (resolveCustomEditor (E := Demo.env Demo.TexOk true true true)
              Demo.src (Demo.world0 sample_text Demo.no_lock)).2)
  = {[ Demo.root ]} ∪ {[ js "/tmp" ]}.
Proof.
  set (E := Demo.env Demo.TexOk true true true).
  set (w0 := Demo.world0 sample_text Demo.no_lock).
  destruct (workspace_never_deleted Demo.src w0
              (demo_tools_keep Demo.TexOk true true true))
    as (Hstart & Hroot & _ & _ & Hdirs & _).
  split; [|split].
  - apply (Hroot Demo.root (mkdtemp (path_join tmpdir (js "vscode-pgf-")) w0).2).
    by_evaluation.
  - apply Hstart. by_evaluation.
  - apply (Hdirs (demo_tools_leave_dirs Demo.TexOk true true true) Demo.root
             (mkdtemp (path_join tmpdir (js "vscode-pgf-")) w0).2).
    by_evaluation.
Defined.

(** * Further properties of the code *)

(** ** Lines *)

Section Lines.

Lemma split_from_lf cur s :
  Js.split_from cur (10%N :: s) = rev cur :: Js.split_from [] s.
Proof. reflexivity. Qed.

Lemma split_from_crlf cur s :
  Js.split_from cur (13%N :: 10%N :: s) = rev cur :: Js.split_from [] s.
Proof. reflexivity. Qed.

Lemma split_from_other cur c s :
  c <> 10%N -> (c <> 13%N \/ head s <> Some 10%N) ->
  Js.split_from cur (c :: s) = Js.split_from (c :: cur) s.
Proof.
  intros Hc Hcr. cbn [Js.split_from].
  rewrite (proj2 (N.eqb_neq _ _) Hc).
  destruct s as [|d s]; [reflexivity|].
  destruct (N.eqb_spec c 13) as [->|]; [|reflexivity].
  destruct (N.eqb_spec d 10) as [->|]; [|reflexivity].
  destruct Hcr as [Hcr|Hcr]; by destruct Hcr.
Qed.

(** Induction over a text the way the line scan reads it. *)
Lemma lines_ind (P : jsstring -> Prop) :
  P [] ->
  (forall s, P s -> P (10%N :: s)) ->
  (forall s, P s -> P (13%N :: 10%N :: s)) ->
  (forall c s, c <> 10%N -> (c <> 13%N \/ head s <> Some 10%N) -> P s -> P (c :: s)) ->
  forall s, P s.
Proof.
  intros Hnil Hlf Hcrlf Hother s.
  remember (length s) as n eqn:Hn. revert s Hn.
  induction n as [n IH] using lt_wf_ind. intros s Hn.
  destruct s as [|c s]; [exact Hnil|]. simpl in Hn.
  destruct (decide (c = 10%N)) as [->|Hc].
  { apply Hlf, (IH (length s)); [lia | reflexivity]. }
  destruct (decide (c = 13%N)) as [->|Hcr].
  - destruct s as [|d s].
    + apply Hother; [done | by right | exact Hnil].
    + destruct (decide (d = 10%N)) as [->|Hd].
      * apply Hcrlf, (IH (length s)); [simpl in Hn; lia | reflexivity].
      * apply Hother; [done | right; simpl; congruence |].
        apply (IH (length (d :: s))); [lia | reflexivity].
  - apply Hother; [done | by left |].
    apply (IH (length s)); [lia | reflexivity].
Qed.

Lemma join_cons sep x (l : list jsstring) :
  l <> [] -> Js.join sep (x :: l) = x ++ sep ++ Js.join sep l.
Proof. by destruct l. Qed.

Lemma crlf_to_lf_keep c s :
  (c <> 13%N \/ head s <> Some 10%N) -> crlf_to_lf (c :: s) = c :: crlf_to_lf s.
Proof.
  intros H. cbn [crlf_to_lf]. destruct s as [|d s]; [reflexivity|].
  destruct (N.eqb_spec c 13) as [->|]; [|reflexivity].
  destruct (N.eqb_spec d 10) as [->|]; [|reflexivity].
  destruct H as [H|H]; by destruct H.
Qed.

Lemma elem_of_rev (x : N) (l : jsstring) : x ∈ rev l <-> x ∈ l.
Proof. rewrite !list_elem_of_In. symmetry. apply in_rev. Qed.

Lemma split_from_shape s :
  forall cur,
    Js.split_from cur s <> [] /\
    (10%N ∉ cur -> Forall (fun l => 10%N ∉ l) (Js.split_from cur s)) /\
    length (Js.split_from cur s) = S (lf_count s).
Proof.
  induction s as [|s IH|s IH|c s Hc Hcr IH] using lines_ind; intros cur.
  - split; [done|]. split; [|reflexivity].
    intros Hcur. constructor; [|constructor]. by rewrite elem_of_rev.
  - rewrite split_from_lf. destruct (IH []) as (_ & Hall & Hlen).
    split; [done|]. split.
    + intros Hcur. constructor; [by rewrite elem_of_rev|].
      apply Hall. apply not_elem_of_nil.
    + simpl. by rewrite Hlen.
  - rewrite split_from_crlf. destruct (IH []) as (_ & Hall & Hlen).
    split; [done|]. split.
    + intros Hcur. constructor; [by rewrite elem_of_rev|].
      apply Hall. apply not_elem_of_nil.
    + simpl. by rewrite Hlen.
  - rewrite (split_from_other _ _ _ Hc Hcr). destruct (IH (c :: cur)) as (Hne & Hall & Hlen).
    split; [done|]. split.
    + intros Hcur. apply Hall. rewrite elem_of_cons. intros [?|?]; congruence.
    + rewrite Hlen. simpl. by rewrite (proj2 (N.eqb_neq _ _) Hc).
Qed.

Lemma join_split_from s :
  forall cur, Js.join nl (Js.split_from cur s) = rev cur ++ crlf_to_lf s.
Proof.
  induction s as [|s IH|s IH|c s Hc Hcr IH] using lines_ind; intros cur.
  - simpl. by rewrite app_nil_r.
  - rewrite split_from_lf, join_cons by apply split_from_shape.
    rewrite IH. rewrite crlf_to_lf_keep by (left; done). reflexivity.
  - rewrite split_from_crlf, join_cons by apply split_from_shape.
    rewrite IH.
    change (crlf_to_lf (13%N :: 10%N :: s)) with (crlf_to_lf (10%N :: s)).
    rewrite crlf_to_lf_keep by (left; done). reflexivity.
  - rewrite (split_from_other _ _ _ Hc Hcr), IH, (crlf_to_lf_keep _ _ Hcr).
    simpl. by rewrite <- app_assoc.
Qed.

Lemma split_from_crlf_text s :
  13%N ∉ s -> forall cur, Js.split_from cur (lf_to_crlf s) = Js.split_from cur s.
Proof.
  induction s as [|c s IH]; intros Hcr cur; [reflexivity|].
  apply not_elem_of_cons in Hcr as [Hc Hs].
  cbn [lf_to_crlf]. destruct (N.eqb_spec c 10) as [->|Hlf].
  - rewrite split_from_crlf, split_from_lf. by rewrite IH.
  - rewrite !split_from_other by (done || (left; congruence)).
    by apply IH.
Qed.

End Lines.

(** X1: for every text, [text.split(/\r?\n/)] yields at least one line, as
    many lines as the text has line feeds plus one, and no line contains a
    line feed. *)
Theorem split_lines_shape (text : jsstring) :
  Js.split_lines text <> [] /\
  length (Js.split_lines text) = S (lf_count text) /\
  Forall (fun l => 10%N ∉ l) (Js.split_lines text).
Proof.
  destruct (split_from_shape text []) as (Hne & Hall & Hlen).
  split; [exact Hne|]. split; [exact Hlen|]. apply Hall, not_elem_of_nil.
Qed.

(** X2: joining the lines of a text with a line feed gives the text back
    with every CR LF turned into LF, and nothing else changed. *)
Theorem join_split_lines (text : jsstring) :
  Js.join nl (Js.split_lines text) = crlf_to_lf text.
Proof. apply (join_split_from text []). Qed.

(** X3: a text without carriage returns and the same text with CR LF line
    ends have the same lines, and so the same extracted preamble. *)
Theorem extract_crlf_invariant (text : jsstring) :
  13%N ∉ text ->
  Js.split_lines (lf_to_crlf text) = Js.split_lines text /\
  extractMatplotlibPreamble (lf_to_crlf text) = extractMatplotlibPreamble text.
Proof.
  intros Hcr.
  assert (H : Js.split_lines (lf_to_crlf text) = Js.split_lines text)
    by apply (split_from_crlf_text text Hcr []).
  split; [exact H|]. unfold extractMatplotlibPreamble. by rewrite H.
Qed.

Lemma extract_crlf_invariant_witness :
  extractMatplotlibPreamble
    (lf_to_crlf (js "%% Matplotlib used the following preamble" ++ nl ++
                 js "%%   \usepackage{amsmath}" ++ nl ++ js "\begingroup"))
  = Some (js "\usepackage{amsmath}").
Proof.
  assert (Hcr : 13%N ∉ js "%% Matplotlib used the following preamble" ++ nl ++
                       js "%%   \usepackage{amsmath}" ++ nl ++ js "\begingroup").
  { apply (bool_decide_unpack _). vm_compute. exact I. }
  rewrite (proj2 (extract_crlf_invariant _ Hcr)).
  reflexivity.
Defined.

(** ** What the patterns accept *)

Section Accepts.

Lemma isPercent_eq c : Js.isPercent c = true <-> c = 37%N.
Proof. unfold Js.isPercent. apply N.eqb_eq. Qed.

(** The prefix [skip] drops is a run of characters of the class. *)
Lemma skip_run cls s :
  exists run, s = run ++ Js.skip cls s /\ Forall (fun c => cls c = true) run.
Proof.
  induction s as [|c s (run & Hs & Hrun)]; [by exists []|].
  simpl. destruct (cls c) eqn:Hc.
  - exists (c :: run). split; [simpl; by rewrite <- Hs | by constructor].
  - by exists [].
Qed.

Lemma skip_app_run cls run t :
  Forall (fun c => cls c = true) run -> Js.skip cls (run ++ t) = Js.skip cls t.
Proof. induction 1 as [|c run Hc _ IH]; [reflexivity|]. simpl. by rewrite Hc. Qed.

Lemma percent_run run :
  Forall (fun c => Js.isPercent c = true) run -> run = replicate (length run) 37%N.
Proof.
  induction 1 as [|c run Hc _ IH]; [reflexivity|].
  apply isPercent_eq in Hc as ->. simpl. by rewrite <- IH.
Qed.

Lemma percent_replicate n : Forall (fun c => Js.isPercent c = true) (replicate n 37%N).
Proof. induction n; by constructor. Qed.

(** White space, or the words of the marker, never start with a percent
    sign. *)
Lemma skip_percent_space ws t :
  Forall (fun c => Js.isWhiteSpace c = true) ws -> ws <> [] ->
  Js.skip Js.isPercent (ws ++ t) = ws ++ t.
Proof.
  intros Hws Hne. destruct Hws as [|a ws Ha _]; [done|].
  simpl. by rewrite (white_not_percent _ Ha).
Qed.

Lemma skip_space_unspaced t :
  starts_with_space t = false -> Js.skip Js.isWhiteSpace t = t.
Proof. destruct t as [|c t]; [done|]. simpl. by intros ->. Qed.

End Accepts.

(** X4: the marker pattern accepts exactly the lines made of one or more
    percent signs, then any run of white space (possibly none), then the
    words [Matplotlib used the following preamble] in this very case, then
    anything. *)
Theorem marker_accepts (line : jsstring) :
  is_marker line = true <->
  exists n ws rest,
    line = replicate (S n) 37%N ++ ws ++ marker_words ++ rest /\
    Forall (fun c => Js.isWhiteSpace c = true) ws.
Proof.
  rewrite is_marker_spec. fold marker_words. split.
  - destruct line as [|c r]; [discriminate|].
    intros [Hc Hw]%andb_prop. apply isPercent_eq in Hc as ->.
    apply bool_decide_eq_true in Hw.
    destruct (skip_run Js.isPercent r) as (run1 & Hr & Hrun1).
    destruct (skip_run Js.isWhiteSpace (Js.skip Js.isPercent r)) as (run2 & Hs & Hrun2).
    exists (length run1), run2,
      (drop 38 (Js.skip Js.isWhiteSpace (Js.skip Js.isPercent r))).
    split; [|exact Hrun2].
    rewrite <- Hw, take_drop, <- Hs. simpl.
    by rewrite <- (percent_run _ Hrun1), <- Hr.
  - intros (n & ws & rest & -> & Hws). cbn [replicate app].
    change (Js.isPercent 37%N) with true. cbv zeta. cbn [andb].
    rewrite (skip_app_run _ _ _ (percent_replicate n)).
    assert (Hp : Js.skip Js.isPercent (ws ++ marker_words ++ rest)
                 = ws ++ marker_words ++ rest).
    { destruct ws as [|a ws]; [reflexivity|]. by apply skip_percent_space. }
    rewrite Hp, (skip_app_run _ _ _ Hws).
    change (Js.skip Js.isWhiteSpace (marker_words ++ rest)) with (marker_words ++ rest).
    apply bool_decide_eq_true.
    change 38%nat with (length marker_words). by rewrite take_app_length.
Qed.

(** X5: the block pattern accepts exactly the lines made of one or more
    percent signs followed by at least three white-space characters. *)
Theorem indented_accepts (line : jsstring) :
  is_indented line = true <->
  exists n a b c rest,
    line = replicate (S n) 37%N ++ a :: b :: c :: rest /\
    Js.isWhiteSpace a = true /\ Js.isWhiteSpace b = true /\ Js.isWhiteSpace c = true.
Proof.
  rewrite is_indented_spec. split.
  - destruct line as [|p r]; [discriminate|].
    intros [Hp Hw]%andb_prop. apply isPercent_eq in Hp as ->.
    destruct (skip_run Js.isPercent r) as (run & Hr & Hrun).
    destruct (Js.skip Js.isPercent r) as [|a [|b [|c rest]]]; try discriminate.
    apply andb_prop in Hw as [[Ha Hb]%andb_prop Hc].
    exists (length run), a, b, c, rest. repeat split; try assumption.
    simpl. by rewrite <- (percent_run _ Hrun), <- Hr.
  - intros (n & a & b & c & rest & -> & Ha & Hb & Hc). cbn [replicate app].
    change (Js.isPercent 37%N) with true. cbn [andb].
    rewrite (skip_app_run _ _ _ (percent_replicate n)).
    cbn [Js.skip]. rewrite (white_not_percent _ Ha). by rewrite Ha, Hb, Hc.
Qed.

(** X6: de-commenting a block line removes its percent signs and the whole
    run of white space after them, however long: the indentation of a line
    inside the block is not kept. *)
Theorem strip_removes_indentation (n : nat) (ws rest : jsstring) :
  Forall (fun c => Js.isWhiteSpace c = true) ws -> ws <> [] ->
  starts_with_space rest = false ->
  strip_prefix (replicate (S n) 37%N ++ ws ++ rest) = rest.
Proof.
  intros Hws Hne Hrest. cbn [replicate app].
  rewrite strip_prefix_percent by reflexivity.
  rewrite (skip_app_run _ _ _ (percent_replicate n)).
  rewrite (skip_percent_space _ _ Hws Hne), (skip_app_run _ _ _ Hws).
  by apply skip_space_unspaced.
Qed.

Lemma strip_removes_indentation_witness :
  strip_prefix (js "%%" ++ [32; 32; 32; 9; 32]%N ++ js "\usepackage{x}")
  = js "\usepackage{x}".
Proof.
  apply (strip_removes_indentation 1 [32; 32; 32; 9; 32]%N (js "\usepackage{x}")).
  - by repeat constructor.
  - discriminate.
  - reflexivity.
Defined.

(** X7: the lines the second loop collects are, in order, the lines of the
    input it has passed, each a block line with its percent signs and the
    white space after them removed; none of them begins with white
    space. *)
Theorem collect_lines_stripped (lines : list jsstring) :
  (forall i l, collect lines !! i = Some l ->
     exists line, lines !! i = Some line /\ is_indented line = true /\
                  l = Js.skip Js.isWhiteSpace (Js.skip Js.isPercent line)) /\
  Forall (fun l => starts_with_space l = false) (collect lines).
Proof.
  induction lines as [|line lines [IH1 IH2]]; [split; [intros i l; by rewrite lookup_nil | constructor]|].
  simpl. destruct (is_indented line) eqn:Hl; cbn [negb];
    [|split; [intros i l; by rewrite lookup_nil | constructor]].
  rewrite (strip_prefix_indented _ Hl). split.
  - intros [|i] l; simpl.
    + intros [= <-]. by exists line.
    + apply IH1.
  - constructor; [|exact IH2].
    destruct (Js.skip Js.isWhiteSpace (Js.skip Js.isPercent line)) as [|c t] eqn:Hs;
      [reflexivity|]. simpl. exact (skip_head _ _ _ _ Hs).
Qed.

(** ** The document and the diagnostic *)

Lemma extract_some_nonempty text r :
  extractMatplotlibPreamble text = Some r -> r <> [].
Proof.
  unfold extractMatplotlibPreamble.
  destruct (find_start 0 (Js.split_lines text)) as [start|]; [|discriminate].
  cbv zeta. destruct (Js.trim _) as [|c t]; [discriminate|].
  by intros [= <-].
Qed.

(** X8: whenever the extractor returns a preamble for the source text, the
    document holds it, followed by one line feed, between the
    [\usepackage{lmodern}] line and [\begin{document}]; the truthiness test
    of the template never drops a returned preamble. *)
Theorem document_holds_preamble (srcPath text : jsstring) :
  texContent srcPath (extractMatplotlibPreamble text) =
    js "\documentclass[border=1mm]{standalone}" ++ nl ++
    js "\usepackage{pgf}" ++ nl ++
    js "\usepackage{lmodern}" ++ nl ++
    match extractMatplotlibPreamble text with
    | Some p => p ++ nl
    | None => []
    end ++
    js "\begin{document}" ++ nl ++
    js "\input{" ++ srcPath ++ js "}" ++ nl ++
    js "\end{document}" ++ nl.
Proof.
  destruct (extractMatplotlibPreamble text) as [[|c p]|] eqn:He; try reflexivity.
  by destruct (extract_some_nonempty _ _ He).
Qed.

(** X9: for a log that is not empty, the diagnostic has at most 203
    characters, never more than three beyond the log, and its first 200
    characters are those of the log. *)
Theorem short_log_bounded (log : jsstring) (err : JsError) :
  log <> [] ->
  (length (short_log log err) <= 203)%nat /\
  (length (short_log log err) <= length log + 3)%nat /\
  take 200 (short_log log err) = take 200 log.
Proof.
  intros Hne. destruct (Nat.lt_ge_cases 200 (length log)) as [Hlong|Hshort].
  - destruct (short_log_long log err Hlong) as [Heq Hlen].
    split; [lia|]. split; [lia|].
    rewrite Heq. rewrite take_app_le by (rewrite length_take; lia).
    apply take_take.
  - rewrite (short_log_short log err Hne Hshort). split; [lia|]. split; [lia|done].
Qed.

Lemma short_log_bounded_witness :
  (length (short_log (Demo.long_log 5000) Demo.exit_error) <= 203)%nat.
Proof.
  apply (short_log_bounded (Demo.long_log 5000) Demo.exit_error). discriminate.
Defined.

(** ** The workspace before the engine *)

Section BeforeEngine.
Context `{E : Env}.

Lemma mkdtemp_world prefix w tmpRoot w1 :
  mkdtemp prefix w = (Ok tmpRoot, w1) ->
  w1 = set_fs {| files := files (fs w); dirs := {[tmpRoot]} ∪ dirs (fs w);
                 unreadable := unreadable (fs w) |} w.
Proof.
  unfold mkdtemp.
  destruct (exists_path (prefix ++ mkdtemp_suffix (fs w)) (fs w)); [discriminate|].
  by intros [= <- <-].
Qed.

Lemma readFile_ok p w text w' :
  readFile p w = (Ok text, w') ->
  files (fs w) !! p = Some text /\ (p ∉ unreadable (fs w)) /\ w' = w.
Proof.
  unfold readFile. case_bool_decide as Hp; [discriminate|].
  destruct (files (fs w) !! p) as [t|]; [|discriminate].
  by intros [= <- <-].
Qed.

Lemma writeFile_ok p text w w' :
  writeFile p text w = (Ok tt, w') ->
  w' = set_fs {| files := <[p := text]> (files (fs w)); dirs := dirs (fs w);
                 unreadable := unreadable (fs w) |} w.
Proof.
  unfold writeFile. destruct (bool_decide _); [discriminate|]. by intros [= <-].
Qed.

Lemma copyFile_ok src dst w w' :
  copyFile src dst w = (Ok tt, w') ->
  exists text,
    files (fs w) !! src = Some text /\ (src ∉ unreadable (fs w)) /\
    w' = set_fs {| files := <[dst := text]> (files (fs w)); dirs := dirs (fs w);
                   unreadable := unreadable (fs w) |} w.
Proof.
  unfold copyFile, mbind, M_bind.
  destruct (readFile src w) as [[text|e] w1] eqn:Hr; [|discriminate].
  apply readFile_ok in Hr as (Hf & Hu & ->).
  intros Hw%writeFile_ok. by exists text.
Qed.

Lemma source_text_read p w :
  source_text p w =
  if bool_decide (p ∈ unreadable (fs w)) then []
  else default [] (files (fs w) !! p).
Proof.
  unfold source_text, readFile. destruct (bool_decide _); [reflexivity|].
  by destruct (files (fs w) !! p).
Qed.

End BeforeEngine.

(** X10: when the source cannot be read, [compilePgfToPdf] throws the read
    error having spawned no process and written no file; the workspace
    directory it has just created is left behind, and the request ends on
    the error page for that error. *)
Theorem unreadable_source_stops `{E : Env} (srcPath : jsstring) (w : World)
    (tmpRoot : jsstring) (w1 : World) (e : JsError) :
  mkdtemp (path_join tmpdir (js "vscode-pgf-")) w = (Ok tmpRoot, w1) ->
  (readFile srcPath w).1 = Throw e ->
  compilePgfToPdf srcPath w = (Throw e, w1) /\
  files (fs w1) = files (fs w) /\
  dirs (fs w1) = {[tmpRoot]} ∪ dirs (fs w) /\
  spawned w1 = spawned w /\
  fs (resolveCustomEditor srcPath w).2 = fs w1 /\
  spawned (resolveCustomEditor srcPath w).2 = spawned w /\
  html (panel (resolveCustomEditor srcPath w).2) = error_page e.
Proof.
  intros Hmk Hrd.
  pose proof (mkdtemp_world _ _ _ _ Hmk) as Hw1.
  assert (Hrd1 : readFile srcPath w1 = (Throw e, w1)).
  { rewrite Hw1. unfold readFile in *. cbn [fs set_fs files unreadable].
    destruct (bool_decide _); [simpl in Hrd; congruence|].
    destruct (files (fs w) !! srcPath); simpl in Hrd; [discriminate | congruence]. }
  assert (Hc : compilePgfToPdf srcPath w = (Throw e, w1)).
  { unfold compilePgfToPdf, mbind at 1, M_bind at 1. rewrite Hmk.
    unfold mbind at 1, M_bind at 1, copyFile, mbind at 1, M_bind at 1.
    by rewrite Hrd1. }
  rewrite resolve_run, Hc. cbn [set_html snd fs spawned panel html set_panel].
  rewrite Hw1. by repeat split.
Qed.

Lemma unreadable_source_stops_witness :
  spawned (resolveCustomEditor (E := Demo.env Demo.TexOk true true true)
             (js "/home/u/missing.pgf") (Demo.world0 sample_text Demo.no_lock)).2 = [] /\
  exists_path Demo.root
    (fs (resolveCustomEditor (E := Demo.env Demo.TexOk true true true)
           (js "/home/u/missing.pgf") (Demo.world0 sample_text Demo.no_lock)).2) = true.
Proof.
  set (E := Demo.env Demo.TexOk true true true).
  set (w0 := Demo.world0 sample_text Demo.no_lock).
  destruct (unreadable_source_stops (js "/home/u/missing.pgf") w0 Demo.root
              (mkdtemp (path_join tmpdir (js "vscode-pgf-")) w0).2
              (system_error "ENOENT"))
    as (_ & _ & _ & _ & Hfs & Hsp & _).
  1-2: by_evaluation.
  split; [exact Hsp|]. rewrite Hfs. by_evaluation.
Defined.

(** X11: when the engine starts, the workspace holds, besides what was
    there: the copy, with the content of the source, and the document,
    whose preamble is the one extracted from that content (from the empty
    text when the copy cannot be read); nothing else has changed.  When the
    two paths coincide, as for a source whose name already ends in [.tex],
    the document has replaced the copy. *)
Theorem workspace_at_engine `{E : Env} (srcPath : jsstring) (w : World)
    (tmpRoot : jsstring) (w3 : World) :
  reaches_engine srcPath w tmpRoot w3 ->
  exists text,
    files (fs w) !! srcPath = Some text /\
    files (fs w3) =
      <[path_join tmpRoot (source_base srcPath ++ js ".tex") :=
          texContent srcPath
            (extractMatplotlibPreamble
               (if bool_decide (path_join tmpRoot (basename srcPath) ∈ unreadable (fs w))
                then [] else text))]>
        (<[path_join tmpRoot (basename srcPath) := text]> (files (fs w))) /\
    dirs (fs w3) = {[tmpRoot]} ∪ dirs (fs w) /\
    unreadable (fs w3) = unreadable (fs w) /\
    spawned w3 = spawned w /\ panel w3 = panel w /\ opened w3 = opened w /\
    (path_join tmpRoot (basename srcPath)
       <> path_join tmpRoot (source_base srcPath ++ js ".tex") ->
     files (fs w3) !! path_join tmpRoot (basename srcPath) = Some text) /\
    (path_join tmpRoot (basename srcPath)
       = path_join tmpRoot (source_base srcPath ++ js ".tex") ->
     files (fs w3) !! path_join tmpRoot (basename srcPath)
     = Some (texContent srcPath
               (extractMatplotlibPreamble
                  (if bool_decide (path_join tmpRoot (basename srcPath) ∈ unreadable (fs w))
                   then [] else text)))).
Proof.
  intros (w1 & w2 & Hmk & Hcp & Hwr).
  apply mkdtemp_world in Hmk as ->.
  apply copyFile_ok in Hcp as (text & Hsrc & _ & ->).
  apply writeFile_ok in Hwr as ->.
  cbn [fs set_fs files dirs unreadable] in *.
  exists text. rewrite source_text_read.
  cbn [fs set_fs files dirs unreadable spawned panel opened].
  rewrite lookup_insert_eq. cbn [default].
  split; [exact Hsrc|]. split; [reflexivity|].
  repeat (split; [reflexivity|]). split.
  - intros Hne. by rewrite lookup_insert_ne, lookup_insert_eq.
  - intros ->. by rewrite lookup_insert_eq.
Qed.

Lemma workspace_at_engine_witness :
  files (fs (at_engine (E := Demo.env Demo.TexOk true true true)
               Demo.src (Demo.world0 sample_text Demo.no_lock)))
    !! js "/tmp/vscode-pgf-Ab3xYz/fig.pgf" = Some sample_text.
Proof.
  set (E := Demo.env Demo.TexOk true true true).
  set (w0 := Demo.world0 sample_text Demo.no_lock).
  destruct (workspace_at_engine Demo.src w0 Demo.root (at_engine Demo.src w0))
    as (text & Hsrc & _ & _ & _ & _ & _ & _ & Hcopy & _).
  - demo_reaches w0.
  - assert (text = sample_text) as ->.
    { assert (Hs : files (fs w0) !! Demo.src = Some sample_text) by by_evaluation.
      congruence. }
    apply Hcopy. vm_compute. discriminate.
Defined.

(** ** Processes and the panel over a whole request *)

#[global] Instance same_panel_refl : Reflexive same_panel.
Proof. by intros w. Qed.

#[global] Instance same_panel_trans : Transitive same_panel.
Proof. intros w1 w2 w3 H1 H2. unfold same_panel in *. congruence. Qed.

Section WholeRequest.
Context `{E : Env}.

Lemma mkdtemp_panel prefix : stable same_panel (mkdtemp prefix).
Proof.
  intros w. unfold same_panel, mkdtemp. by destruct (exists_path _ _).
Qed.

Lemma readFile_panel p : stable same_panel (readFile p).
Proof.
  intros w. unfold same_panel, readFile. destruct (bool_decide _); [reflexivity|].
  destruct (files _ !! _); reflexivity.
Qed.

Lemma writeFile_panel p text : stable same_panel (writeFile p text).
Proof. intros w. unfold same_panel, writeFile. by destruct (bool_decide _). Qed.

Lemma existsSync_panel p : stable same_panel (existsSync p).
Proof. intros w. reflexivity. Qed.

Lemma execFileP_panel c a d : stable same_panel (execFileP c a d).
Proof.
  intros w. unfold same_panel, execFileP.
  by destruct (run_process _ (fs w)) as [[e|] f'].
Qed.

Lemma compile_panel srcPath : stable same_panel (compilePgfToPdf srcPath).
Proof.
  pose proof mkdtemp_panel. pose proof readFile_panel. pose proof writeFile_panel.
  pose proof existsSync_panel. pose proof execFileP_panel.
  unfold compilePgfToPdf, run_pdflatex, copyFile. cbv zeta. stable_walk.
Qed.

Lemma render_panel pdfPath tmpRoot : stable same_panel (renderPdfToPng pdfPath tmpRoot).
Proof.
  pose proof existsSync_panel. pose proof execFileP_panel.
  unfold renderPdfToPng, attempt. cbv zeta. stable_walk.
Qed.

(** The processes [renderPdfToPng] spawns: the three tools, up to the
    first attempt that does not fail. *)
Lemma render_spawns pdfPath tmpRoot w :
  exists l,
    spawned (renderPdfToPng pdfPath tmpRoot w).2 = spawned w ++ l /\
    (cmd <$> l = [js "pdftocairo"] \/
     cmd <$> l = [js "pdftocairo"; js "pdftoppm"] \/
     cmd <$> l = [js "pdftocairo"; js "pdftoppm"; js "convert"]).
Proof.
  pose proof (render_run pdfPath tmpRoot w) as Hrun. cbv zeta in Hrun.
  rewrite Hrun.
  repeat match goal with
         | |- context [attempt_fails ?sp ?p ?f] => destruct (attempt_fails sp p f)
         end;
    cbn [negb snd spawned after_spawn]; rewrite <- ?app_assoc;
    eexists; (split; [reflexivity|]); cbn; auto.
Qed.

End WholeRequest.

(** X12: a tool that is rejected is never rescued by the file it may have
    left: when [pdftocairo] is rejected, [pdftoppm] is run next, whether or
    not the PNG exists by then. *)
Theorem rejected_tool_not_rescued `{E : Env} (pdfPath tmpRoot : jsstring)
    (w : World) (e : JsError) (f1 : FS) :
  run_process
    (pdftocairo_call pdfPath (path_join tmpRoot (basename_ext pdfPath (extname pdfPath))))
    (fs w) = (Some e, f1) ->
  exists l,
    spawned (renderPdfToPng pdfPath tmpRoot w).2 =
    spawned w ++
    pdftocairo_call pdfPath (path_join tmpRoot (basename_ext pdfPath (extname pdfPath))) ::
    pdftoppm_call pdfPath (path_join tmpRoot (basename_ext pdfPath (extname pdfPath))) :: l.
Proof.
  intros Hrej.
  pose proof (render_run pdfPath tmpRoot w) as Hrun. cbv zeta in Hrun.
  rewrite Hrun. unfold attempt_fails at 1. rewrite Hrej. cbn [negb].
  repeat match goal with
         | |- context [attempt_fails ?sp ?p ?f] => destruct (attempt_fails sp p f)
         end;
    cbn [negb snd spawned after_spawn]; rewrite <- ?app_assoc;
    eexists; reflexivity.
Qed.

Lemma rejected_tool_not_rescued_witness :
  exists l,
    spawned
      (renderPdfToPng (E := Demo.env Demo.TexOk false true true)
         (js "/tmp/vscode-pgf-Ab3xYz/fig.pdf") Demo.root
         (Demo.world0 sample_text Demo.no_lock)).2
    = [] ++
      pdftocairo_call (js "/tmp/vscode-pgf-Ab3xYz/fig.pdf") (js "/tmp/vscode-pgf-Ab3xYz/fig") ::
      pdftoppm_call (js "/tmp/vscode-pgf-Ab3xYz/fig.pdf") (js "/tmp/vscode-pgf-Ab3xYz/fig") :: l.
Proof.
  apply (rejected_tool_not_rescued (E := Demo.env Demo.TexOk false true true)
           (js "/tmp/vscode-pgf-Ab3xYz/fig.pdf") Demo.root
           (Demo.world0 sample_text Demo.no_lock)
           Demo.exit_error (fs (Demo.world0 sample_text Demo.no_lock))).
  by_evaluation.
Defined.

(** X13: over a whole request the processes are spawned in the order
    [pdflatex], [pdftocairo], [pdftoppm], [convert], each at most once: the
    commands run form a prefix of that list. *)
Theorem request_spawn_order `{E : Env} (srcPath : jsstring) (w : World) :
  exists l,
    spawned (resolveCustomEditor srcPath w).2 = spawned w ++ l /\
    cmd <$> l `prefix_of`
      [js "pdflatex"; js "pdftocairo"; js "pdftoppm"; js "convert"].
Proof.
  rewrite resolve_run.
  destruct (compile_cases srcPath w) as [(e & w' & -> & Hsp) | (tmpRoot & w3 & Hreach)].
  { exists []. cbn [set_html snd spawned set_panel]. rewrite app_nil_r.
    split; [exact Hsp | apply prefix_nil]. }
  pose proof (run_pdflatex_spawned tmpRoot (source_base srcPath)
                (source_base srcPath ++ js ".tex") w3) as Hsp.
  rewrite <- (compile_from_engine _ _ _ _ Hreach) in Hsp.
  rewrite (reaches_engine_spawned _ _ _ _ Hreach) in Hsp.
  destruct (compilePgfToPdf srcPath w) as [[[t pdfPath]|err] wc]; cbn [snd] in Hsp.
  - destruct (render_spawns pdfPath t (set_options [t] wc).2) as (l & Hl & Hcmd).
    exists (pdflatex_call tmpRoot (source_base srcPath ++ js ".tex") :: l).
    split.
    + assert (Hwr : spawned (renderPdfToPng pdfPath t (set_options [t] wc).2).2
                    = spawned w ++
                      pdflatex_call tmpRoot (source_base srcPath ++ js ".tex") :: l)
        by (rewrite Hl; cbn [set_options snd set_panel spawned];
            rewrite Hsp, <- app_assoc; reflexivity).
      destruct (renderPdfToPng pdfPath t _) as [[png|e] wr]; cbn [snd] in Hwr |- *;
        [|exact Hwr].
      destruct (host_open png (fs wr)) as [e|]; [exact Hwr|].
      cbn [snd]. by rewrite (proj1 (proj2 (guarded_dispose _))).
    + cbn [fmap list_fmap cmd pdflatex_call].
      destruct Hcmd as [Hc | [Hc | Hc]]; change (list_fmap _ _ cmd l) with (cmd <$> l);
        rewrite Hc.
      * by exists [js "pdftoppm"; js "convert"].
      * by exists [js "convert"].
      * by exists [].
  - exists [pdflatex_call tmpRoot (source_base srcPath ++ js ".tex")].
    cbn [set_html snd spawned set_panel]. split; [exact Hsp|].
    by exists [js "pdftocairo"; js "pdftoppm"; js "convert"].
Qed.

(** X14: the panel at the end of a request.  After a compile failure only
    its page has changed, to the error page.  After a successful
    compilation the workspace is its one local resource root; when the
    rasterization throws, or when [vscode.open] is rejected, its page is
    the fallback page with the link to the PDF and the description of the
    error, and its disposed flag is as it was; when the image was opened
    its page is untouched, and it is disposed of if [dispose] returned,
    while a throwing [dispose] is swallowed and leaves the flag as it
    was. *)
Theorem panel_after_request `{E : Env} (srcPath : jsstring) (w : World) :
  match compilePgfToPdf srcPath w with
  | (Throw err, wc) =>
      panel (resolveCustomEditor srcPath w).2 =
      {| html := js "<html><body><pre>Error: " ++ message_or_string err ++
                 js "</pre></body></html>";
         localResourceRoots := localResourceRoots (panel w);
         disposed := disposed (panel w) |}
  | (Ok (tmpRoot, pdfPath), wc) =>
      match renderPdfToPng pdfPath tmpRoot (set_options [tmpRoot] wc).2 with
      | (Throw e, wr) =>
          panel (resolveCustomEditor srcPath w).2 =
          {| html := js "<html><body><p>Could not rasterize PDF: " ++
                     message_or_string e ++
                     js "</p><p><a href=" ++ [34%N] ++ asWebviewUri pdfPath ++ [34%N] ++
                     js ">Open PDF externally</a></p></body></html>";
             localResourceRoots := [tmpRoot];
             disposed := disposed (panel w) |}
      | (Ok pngPath, wr) =>
          match host_open pngPath (fs wr) with
          | Some e =>
              panel (resolveCustomEditor srcPath w).2 =
              {| html := js "<html><body><p>Could not rasterize PDF: " ++
                         message_or_string e ++
                         js "</p><p><a href=" ++ [34%N] ++ asWebviewUri pdfPath ++ [34%N] ++
                         js ">Open PDF externally</a></p></body></html>";
                 localResourceRoots := [tmpRoot];
                 disposed := disposed (panel w) |}
          | None =>
              panel (resolveCustomEditor srcPath w).2 =
              {| html := html (panel w);
                 localResourceRoots := [tmpRoot];
                 disposed :=
                   match host_dispose {| html := html (panel w);
                                         localResourceRoots := [tmpRoot];
                                         disposed := disposed (panel w) |} with
                   | None => true
                   | Some _ => disposed (panel w)
                   end |}
          end
      end
  end.
Proof.
  rewrite resolve_run.
  pose proof (compile_panel srcPath w) as Hc. unfold same_panel in Hc.
  destruct (compilePgfToPdf srcPath w) as [[[tmpRoot pdfPath]|err] wc]; cbn [snd] in Hc.
  - pose proof (render_panel pdfPath tmpRoot (set_options [tmpRoot] wc).2) as Hr.
    unfold same_panel in Hr.
    destruct (renderPdfToPng pdfPath tmpRoot _) as [[pngPath|e] wr];
      cbn [snd set_options set_panel panel] in Hr; rewrite Hc in Hr.
    + destruct (host_open pngPath (fs wr)) as [e|].
      * cbn [snd set_html set_panel panel]. rewrite Hr, fallback_page_text.
        reflexivity.
      * cbn [snd]. unfold try_catch, dispose, mret, M_ret. cbn [panel].
        rewrite Hr. by destruct (host_dispose _).
    + cbn [snd set_html set_panel panel]. rewrite Hr, fallback_page_text.
      reflexivity.
  - cbn [snd set_html set_panel panel]. by rewrite Hc, error_page_text.
Qed.

Lemma panel_after_request_witness :
  panel (resolveCustomEditor (E := demo_env_host_fails) Demo.src
           (Demo.world0 sample_text Demo.no_lock)).2
  = {| html := js "<html><body><p>Could not rasterize PDF: Unable to open the file</p><p><a href="
                ++ [34%N] ++ js "vscode-resource:/tmp/vscode-pgf-Ab3xYz/fig.pdf" ++ [34%N]
                ++ js ">Open PDF externally</a></p></body></html>";
       localResourceRoots := [Demo.root];
       disposed := false |}.
Proof.
  pose proof (panel_after_request (E := demo_env_host_fails) Demo.src
                (Demo.world0 sample_text Demo.no_lock)) as H.
  assert (Hc : compilePgfToPdf (E := demo_env_host_fails) Demo.src
                 (Demo.world0 sample_text Demo.no_lock)
               = (Ok (Demo.root, js "/tmp/vscode-pgf-Ab3xYz/fig.pdf"),
                  (compilePgfToPdf (E := demo_env_host_fails) Demo.src
                     (Demo.world0 sample_text Demo.no_lock)).2)) by by_evaluation.
  rewrite Hc in H. cbv beta iota in H.
  set (wc := (compilePgfToPdf (E := demo_env_host_fails) Demo.src
                (Demo.world0 sample_text Demo.no_lock)).2) in *.
  assert (Hr : renderPdfToPng (E := demo_env_host_fails)
                 (js "/tmp/vscode-pgf-Ab3xYz/fig.pdf") Demo.root
                 (set_options [Demo.root] wc).2
               = (Ok (js "/tmp/vscode-pgf-Ab3xYz/fig.png"),
                  (renderPdfToPng (E := demo_env_host_fails)
                     (js "/tmp/vscode-pgf-Ab3xYz/fig.pdf") Demo.root
                     (set_options [Demo.root] wc).2).2)) by by_evaluation.
  rewrite Hr in H. cbv beta iota in H.
  change (host_open (js "/tmp/vscode-pgf-Ab3xYz/fig.png") _) with (Some open_rejected) in H.
  cbv beta iota in H. rewrite H. reflexivity.
Defined.

(** X15: the pages of the two compile failures, as the panel shows them:
    after a rejected [pdflatex] the page is the fixed frame around
    [Failed to build PGF: ] and the diagnostic; after a [pdflatex] that
    returned without leaving the PDF it is the fixed [PDF not produced]
    page.  The diagnostic is put into the page as it is, with no HTML
    escaping. *)
Theorem failure_pages `{E : Env} (srcPath : jsstring) (w : World)
    (tmpRoot : jsstring) (w3 : World) :
  reaches_engine srcPath w tmpRoot w3 ->
  match run_process (pdflatex_call tmpRoot (source_base srcPath ++ js ".tex")) (fs w3) with
  | (Some err, f') =>
      html (panel (resolveCustomEditor srcPath w).2) =
      js "<html><body><pre>Error: Failed to build PGF: " ++
      short_log
        (source_text (path_join tmpRoot (source_base srcPath ++ js ".log"))
           (after_spawn (pdflatex_call tmpRoot (source_base srcPath ++ js ".tex")) f' w3))
        err ++
      js "</pre></body></html>"
  | (None, f') =>
      exists_path (path_join tmpRoot (source_base srcPath ++ js ".pdf")) f' = false ->
      html (panel (resolveCustomEditor srcPath w).2) =
      js "<html><body><pre>Error: PDF not produced. Ensure `pdflatex` is installed.</pre></body></html>"
  end.
Proof.
  intros Hreach. rewrite resolve_run, (compile_from_engine _ _ _ _ Hreach).
  destruct (run_process _ (fs w3)) as [[err|] f'] eqn:Hrun.
  - rewrite (run_pdflatex_rejected _ _ _ _ _ _ Hrun).
    cbn [set_html snd panel set_panel html]. unfold error_page, source_text.
    reflexivity.
  - intros Hno. rewrite (run_pdflatex_returned _ _ _ _ _ Hrun), Hno.
    reflexivity.
Qed.

Lemma failure_pages_witness :
  html (panel (resolveCustomEditor (E := Demo.env Demo.TexSilent true true true)
                 Demo.src (Demo.world0 sample_text Demo.no_lock)).2)
  = js "<html><body><pre>Error: PDF not produced. Ensure `pdflatex` is installed.</pre></body></html>".
Proof.
  set (E := Demo.env Demo.TexSilent true true true).
  set (w0 := Demo.world0 sample_text Demo.no_lock).
  assert (Hreach : reaches_engine Demo.src w0 Demo.root (at_engine Demo.src w0))
    by demo_reaches w0.
  pose proof (failure_pages Demo.src w0 Demo.root (at_engine Demo.src w0) Hreach) as H.
  assert (Hrun : run_process (pdflatex_call Demo.root (source_base Demo.src ++ js ".tex"))
                   (fs (at_engine Demo.src w0)) = (None, fs (at_engine Demo.src w0)))
    by by_evaluation.
  rewrite Hrun in H. apply H. by_evaluation.
Defined.

(** X16: two requests in a row never share a workspace: provided the
    external programs remove nothing, the directory [mkdtemp] gives the
    second request differs from the one the first request was given. *)
Theorem successive_workspaces_differ `{E : Env} (srcPath : jsstring) (w : World)
    (tmpRoot1 : jsstring) (w1 : World) (tmpRoot2 : jsstring) (w2 : World) :
  tools_keep ->
  mkdtemp (path_join tmpdir (js "vscode-pgf-")) w = (Ok tmpRoot1, w1) ->
  mkdtemp (path_join tmpdir (js "vscode-pgf-")) (resolveCustomEditor srcPath w).2
    = (Ok tmpRoot2, w2) ->
  tmpRoot2 <> tmpRoot1.
Proof.
  intros Htools Hmk1 Hmk2.
  destruct (mkdtemp_fresh _ _ _ _ Hmk1) as (_ & _ & Hmade).
  destruct (mkdtemp_fresh _ _ _ _ Hmk2) as (_ & Hfree & _).
  intros ->.
  assert (Hstill : exists_path tmpRoot1 (fs (resolveCustomEditor srcPath w).2) = true).
  { apply (resolve_keeps_compiled srcPath w Htools).
    by apply (compile_keeps_allocated srcPath w tmpRoot1 w1 Htools Hmk1). }
  congruence.
Qed.

Lemma demo_fresh_tools_keep : tools_keep (E := demo_env_fresh).
Proof. exact (demo_tools_keep Demo.TexOk true true true). Qed.

Lemma successive_workspaces_differ_witness :
  js "/tmp/vscode-pgf-Qr7LmN" <> js "/tmp/vscode-pgf-Ab3xYz".
Proof.
  set (w0 := Demo.world0 sample_text Demo.no_lock).
  apply (successive_workspaces_differ (E := demo_env_fresh) Demo.src w0
           (js "/tmp/vscode-pgf-Ab3xYz")
           (mkdtemp (E := demo_env_fresh) (js "/tmp/vscode-pgf-") w0).2
           (js "/tmp/vscode-pgf-Qr7LmN")
           (mkdtemp (E := demo_env_fresh) (js "/tmp/vscode-pgf-")
              (resolveCustomEditor (E := demo_env_fresh) Demo.src w0).2).2
           demo_fresh_tools_keep).
  - by_evaluation.
  - by_evaluation.
Defined.

(** ** The command *)

(** X17: the command shows the open dialog exactly when the active editor
    holds no saved document; it opens at most one file, always with the
    custom viewer, and last: the document of the active editor when that is
    saved, else the first file the dialog returned; and it opens nothing
    exactly when the dialog was shown and came back cancelled or empty. *)
Theorem view_command_calls (activeTextEditor : option TextEditor)
    (showOpenDialog : OpenDialogOptions -> option (list jsstring)) :
  exists shown opens,
    viewPgf activeTextEditor showOpenDialog = shown ++ opens /\
    (shown = [] \/ shown = [ShowOpenDialog pgf_dialog]) /\
    (opens = [] \/ exists u, opens = [open_with_viewer u]) /\
    (shown = [] <->
     exists doc, activeTextEditor = Some {| document := Some doc |} /\
                 isUntitled doc = false) /\
    (opens = [] <->
     shown <> [] /\
     (showOpenDialog pgf_dialog = None \/ showOpenDialog pgf_dialog = Some [])) /\
    (forall doc, activeTextEditor = Some {| document := Some doc |} ->
                 isUntitled doc = false -> opens = [open_with_viewer (uri doc)]) /\
    (forall u rest, shown <> [] -> showOpenDialog pgf_dialog = Some (u :: rest) ->
                    opens = [open_with_viewer u]).
Proof.
  unfold viewPgf.
  destruct activeTextEditor as [[[[[] u]|]]|]; cbn [document isUntitled uri negb].
  2:{ exists [], [open_with_viewer u]. split; [reflexivity|].
      split; [by left|]. split; [right; by exists u|].
      split; [split; [intros _; by eexists|done]|].
      split; [split; [discriminate | by intros [[] _]]|].
      split; [by intros doc [= <-] _ | by intros ? ? []]. }
  all: destruct (showOpenDialog pgf_dialog) as [[|v rest]|] eqn:Hd.
  all: first [ exists [ShowOpenDialog pgf_dialog], [open_with_viewer v]
             | exists [ShowOpenDialog pgf_dialog], [] ].
  all: split; [reflexivity|].
  all: split; [by right|].
  all: split; [first [by left | right; by eexists]|].
  all: split; [split; [discriminate | intros (doc & Hdoc & Hu); simplify_eq; discriminate]|].
  all: split; [split; [first [discriminate | intros _; split; [discriminate | auto]]
                      | first [by intros _ | intros [_ [H|H]]; congruence]]|].
  all: split; [intros doc Hdoc Hu; simplify_eq; discriminate|].
  all: intros ? ? _ H; simplify_eq; reflexivity.
Qed.

(** ** A successful compilation *)

(** X18: when [compilePgfToPdf] returns, the directory it returns is the
    one [mkdtemp] created for this request, the PDF path lies in it under
    the source's base name, and exactly one process has been spawned:
    [pdflatex] in batch mode, with the workspace as working and output
    directory and the document's file name as its only file argument,
    which returned without error. *)
Theorem compile_success `{E : Env} (srcPath : jsstring) (w : World)
    (tmpRoot pdfPath : jsstring) (w' : World) :
  compilePgfToPdf srcPath w = (Ok (tmpRoot, pdfPath), w') ->
  (mkdtemp (path_join tmpdir (js "vscode-pgf-")) w).1 = Ok tmpRoot /\
  pdfPath = path_join tmpRoot (source_base srcPath ++ js ".pdf") /\
  spawned w' =
    spawned w ++
    [{| cmd := js "pdflatex";
        args := [js "-interaction=batchmode"; js "-output-directory"; tmpRoot;
                 source_base srcPath ++ js ".tex"];
        cwd := Some tmpRoot |}] /\
  exists w3,
    reaches_engine srcPath w tmpRoot w3 /\
    (run_process (pdflatex_call tmpRoot (source_base srcPath ++ js ".tex")) (fs w3)).1 = None.
Proof.
  intros Hok.
  destruct (compile_ok_reaches _ _ _ _ Hok) as (t & w3 & Hreach).
  pose proof Hok as Hrun. rewrite (compile_from_engine _ _ _ _ Hreach) in Hrun.
  destruct (run_pdflatex_ok _ _ _ _ _ _ Hrun) as (Hr & _ & Hw').
  injection Hr as <- ->.
  split; [by destruct Hreach as (w1 & w2 & -> & _)|].
  split; [reflexivity|]. split.
  - rewrite Hw'. cbn [spawned after_spawn].
    by rewrite (reaches_engine_spawned _ _ _ _ Hreach).
  - exists w3. split; [exact Hreach|].
    destruct (run_process _ (fs w3)) as [[err|] f'] eqn:Hp; [|reflexivity].
    rewrite (run_pdflatex_rejected _ _ _ _ _ _ Hp) in Hrun. discriminate.
Qed.

Lemma compile_success_witness :
  cmd <$> spawned (compilePgfToPdf (E := Demo.env Demo.TexOk true true true)
                     Demo.src (Demo.world0 sample_text Demo.no_lock)).2
  = [js "pdflatex"].
Proof.
  set (E := Demo.env Demo.TexOk true true true).
  set (w0 := Demo.world0 sample_text Demo.no_lock).
  destruct (compile_success Demo.src w0 Demo.root (js "/tmp/vscode-pgf-Ab3xYz/fig.pdf")
              (compilePgfToPdf Demo.src w0).2) as (_ & _ & Hsp & _).
  - by_evaluation.
  - rewrite Hsp. reflexivity.
Defined.
